(** * cubi-sak: the SODAR client and the safe file writer

    A shallow embedding of [cubi_sak/sodar/api.py] and of
    [cubi_sak/common.py] ([get_terminal_columns], [overwrite_helper]),
    followed by the properties of these functions.

    Python [str] values are [string]s (code points below 256), a [dict] is
    an association list in insertion order, the file store is a finite map
    from path to text, and every function that talks to the outside (HTTP,
    logging, terminal, files) is a computation in a state-and-exception
    monad over a world that records what was done. *)

From Stdlib Require Import ZArith Ascii String.
From stdpp Require Import base option list strings gmap.

Local Open Scope string_scope.

(** * Python values *)

Module Py.

(** [s.startswith(prefix)] *)
Definition startswith (s prefix : string) : bool := String.prefix prefix s.

(** [s.endswith(suffix)]: [suffix] ends [s] when it is [s] itself or ends
    the tail of [s]. *)
Fixpoint endswith (s suffix : string) : bool :=
  String.eqb s suffix ||
  match s with
  | EmptyString => false
  | String _ rest => endswith rest suffix
  end.

(** [s[:-1]] *)
Fixpoint drop_last (s : string) : string :=
  match s with
  | EmptyString => EmptyString
  | String c rest =>
      match rest with
      | EmptyString => EmptyString
      | String _ _ => String c (drop_last rest)
      end
  end.

(** [k * "/"] *)
Fixpoint slashes (k : nat) : string :=
  match k with
  | O => ""
  | S k' => String "/"%char (slashes k')
  end.

(** The code points with an upper-case form below 256: A-Z, and the
    Latin-1 capitals U+00C0-U+00DE without the multiplication sign. *)
Definition is_upper (c : ascii) : bool :=
  let n := nat_of_ascii c in
  (((65 <=? n) && (n <=? 90)) ||
   ((192 <=? n) && (n <=? 222) && negb (n =? 215)))%nat.

Definition lower_char (c : ascii) : ascii :=
  if is_upper c then ascii_of_nat (nat_of_ascii c + 32) else c.

(** [s.lower()] *)
Fixpoint lower (s : string) : string :=
  match s with
  | EmptyString => EmptyString
  | String c rest => String (lower_char c) (lower rest)
  end.

(** The line boundaries of [str.splitlines]: LF, VT, FF, CR, FS, GS, RS
    and NEL (the two boundaries above 255 are outside this model). *)
Definition is_linebreak (c : ascii) : bool :=
  let n := nat_of_ascii c in
  (((10 <=? n) && (n <=? 13)) || ((28 <=? n) && (n <=? 30)) ||
   (n =? 133))%nat.

(** [s.splitlines(keepends=False)]; [cur] is the line being read. A CR
    directly followed by LF is one boundary; text after the last boundary
    is a line only when it is not empty. *)
Fixpoint splitlines_from (cur s : string) : list string :=
  match s with
  | EmptyString => if String.eqb cur "" then [] else [cur]
  | String c rest =>
      if is_linebreak c then
        cur :: match rest with
               | String c' rest' =>
                   if Ascii.eqb c "013"%char && Ascii.eqb c' "010"%char
                   then splitlines_from "" rest'
                   else splitlines_from "" rest
               | EmptyString => splitlines_from "" rest
               end
      else splitlines_from (cur +:+ String c "") rest
  end.

Definition splitlines (s : string) : list string := splitlines_from "" s.

(** What a text-mode read with [newline=None] returns for stored text:
    CR LF and a lone CR both come back as LF. *)
Fixpoint universal_newlines (s : string) : string :=
  match s with
  | EmptyString => EmptyString
  | String c rest =>
      if Ascii.eqb c "013"%char then
        String "010"%char match rest with
                     | String c' rest' =>
                         if Ascii.eqb c' "010"%char then universal_newlines rest'
                         else universal_newlines rest
                     | EmptyString => universal_newlines rest
                     end
      else String c (universal_newlines rest)
  end.

(** [text.encode("utf-8")] for code points below 256. *)
Fixpoint encode_utf8 (s : string) : list N :=
  match s with
  | EmptyString => []
  | String c rest =>
      let n := N_of_ascii c in
      (if (n <? 128)%N then [n]
       else [N.lor 192 (N.shiftr n 6); N.lor 128 (N.land n 63)])
      ++ encode_utf8 rest
  end.

(** An identifier that was not given: [None] or the empty string. *)
Definition absent (x : option string) : Prop := x = None ∨ x = Some "".

(** Truth value of an optional string: false exactly when [absent]. *)
Definition truthy (x : option string) : bool :=
  match x with
  | None => false
  | Some s => negb (String.eqb s "")
  end.

(** [a or b] on optional strings. *)
Definition or_ (a b : option string) : option string :=
  if truthy a then a else b.

(** [str(x)], as the [%s] conversion renders it. *)
Definition str (x : option string) : string :=
  match x with
  | None => "None"
  | Some s => s
  end.

(** A [dict]: its items in insertion order (keys pairwise distinct). *)
Definition dict (V : Type) : Type := list (string * V).

Definition keys {V} (d : dict V) : list string := d.*1.
Definition values {V} (d : dict V) : list V := d.*2.
Definition wf {V} (d : dict V) : Prop := NoDup (keys d).

(** [d[k] = v]: replaces the value of a present key in place, appends a
    new key. *)
Fixpoint setitem {V} (d : dict V) (k : string) (v : V) : dict V :=
  match d with
  | [] => [(k, v)]
  | (k', v') :: d' =>
      if String.eqb k' k then (k', v) :: d' else (k', v') :: setitem d' k v
  end.

End Py.

(** * Exceptions, the world and the monad *)

(** The exceptions these functions raise or let through. *)
Inductive exn :=
| ParameterException (msg : string)
| UnsupportedIsaTabFeatureException (msg : string)
| Exception (msg : string)
| IndexError (msg : string)
| HTTPError (status_code : Z)       (* r.raise_for_status() *)
| ConnectionError                   (* the request got no response *)
| ValueError (msg : string)         (* r.json() on a body that is not JSON *)
| StructureError                    (* cattr.structure on another shape *)
| IsaTabError (msg : string)        (* raised by an altamisa reader *)
| EOFError.                         (* input() at end of input *)

Inductive result (A : Type) :=
| Ok (a : A)
| Raise (e : exn).
Arguments Ok {A} a.
Arguments Raise {A} e.

Inductive level := DEBUG | INFO | ERROR.

(** A positional argument of a logging call. *)
Inductive log_arg :=
| ArgStr (s : string)
| ArgInt (n : Z).

Inductive http_method := GET | POST.

Record request := {
  method : http_method;
  url : string;
  headers : list (string * string);
  data : list (string * string)
}.

Inductive reader := InvestigationReader | StudyReader | AssayReader.

(** What a call does to the outside, in the order it does it. *)
Inductive event :=
| Log (lvl : level) (fmt : string) (args : list log_arg)
| Sent (r : request)                        (* requests.get, requests.post *)
| Read (rd : reader) (filename : string)    (* an altamisa reader's read() *)
| OutWrite (text : string)                  (* text written to out_file *)
| OutBufferWrite (bytes : list N)           (* out_file.buffer.write *)
| OutFlush
| StdoutWrite (text : string)               (* text copied to sys.stdout *)
| Prompt (text : string).                   (* input(text) *)

(** The world: the files (each file to its text), the window size the
    terminal reports per file descriptor as (rows, columns), the lines
    still to be typed on standard input, and the events so far. *)
Record world := {
  fs : gmap string string;
  winsize : Z → option (Z * Z);
  stdin : list string;
  trace : list event
}.

Definition M (A : Type) : Type := world → result A * world.

#[global] Instance M_ret : MRet M := λ A a w, (Ok a, w).
#[global] Instance M_bind : MBind M := λ A B f m w,
  match m w with
  | (Ok a, w') => f a w'
  | (Raise e, w') => (Raise e, w')
  end.

Definition raise {A} (e : exn) : M A := λ w, (Raise e, w).

(** The world after further events. *)
Definition add_events (w : world) (evs : list event) : world :=
  {| fs := fs w; winsize := winsize w; stdin := stdin w;
     trace := trace w ++ evs |}.

Definition emit (e : event) : M unit := λ w, (Ok tt, add_events w [e]).

Definition log (lvl : level) (fmt : string) (args : list log_arg) : M unit :=
  emit (Log lvl fmt args).

(** The requests of a trace, oldest first. *)
Definition sent (t : list event) : list request :=
  omap (λ e, match e with Sent r => Some r | _ => None end) t.

(** The reader calls of a trace. *)
Definition reads (t : list event) : list (reader * string) :=
  omap (λ e, match e with Read rd f => Some (rd, f) | _ => None end) t.

(** [list(...)[0]] *)
Definition index0 {A} (l : list A) : M A :=
  match l with
  | x :: _ => mret x
  | [] => raise (IndexError "list index out of range")
  end.

(** A dict comprehension [{k: f(k, v) for k, v in items}], built onto
    [acc] in iteration order. *)
Fixpoint dict_comprehension {V R} (f : string → V → M R)
    (items : list (string * V)) (acc : Py.dict R) : M (Py.dict R) :=
  match items with
  | [] => mret acc
  | (k, v) :: items' =>
      x ← f k v; dict_comprehension f items' (Py.setitem acc k x)
  end.

(** * The collaborators *)

Module models.

(** Modelled from the spec: the [models] module is not among the sources.
    An assay is a leaf record, identified by a file path. *)
Record Assay := { assay_file_name : string }.

(** Modelled from the spec: a study owns a mapping from assay path to
    assay and is identified by a file path. *)
Record Study := { study_file_name : string; assays : Py.dict Assay }.

(** Modelled from the spec: an investigation owns a mapping from study
    path to study. *)
Record Investigation := { studies : Py.dict Study }.

(** Modelled from the spec: a landing zone has an identifying UUID and the
    UUID of its assay. *)
Record LandingZone := { sodar_uuid : string; assay : string }.

End models.

Record response (json : Type) := {
  status_code : Z;
  body : option json    (* the decoded body; [None] when it is not JSON *)
}.
Arguments status_code {json} r.
Arguments body {json} r.

(** One entry of an export payload: [{"tsv": ..., "path": ...}]. *)
Record sheet_entry := { tsv : string; path : string }.

(** The entries of a decoded export payload that the client indexes:
    [raw_data["investigation"]], [raw_data["studies"].items()] and
    [raw_data["assays"].items()]. *)
Record raw_sheet := {
  raw_investigation : sheet_entry;
  raw_studies : Py.dict sheet_entry;
  raw_assays : Py.dict sheet_entry
}.

(** [requests] and the service behind it, [cattr] and the decoded bodies.
    The answer to a request may depend on the requests sent before it;
    [None] is a request that got no response. A [structure_] function is
    [None] where [cattr.structure] raises. *)
Class Service := {
  json : Type;
  answer : list request → request → option (response json);
  structure_Investigation : json → option models.Investigation;
  structure_LandingZone : json → option models.LandingZone;
  structure_LandingZones : json → option (list models.LandingZone);
  sheet : json → raw_sheet
}.

(** The altamisa readers: [from_stream(...).read()] on the text of a
    stream, [inl] carrying the message of the exception it raises. A parsed
    study has a [file] attribute. *)
Class IsaTab := {
  InvestigationInfo : Type;
  Study : Type;
  Assay : Type;
  file : Study → string;
  read_investigation : string → string → string + InvestigationInfo;
  read_study : string → string → string → string + Study;
  read_assay : string → string → string → string → string + Assay
}.

(** * [cubi_sak/sodar/api.py] *)

Module api.
Section api.
Context `{Service} `{IsaTab}.

(** [while sodar_url.endswith("/"): sodar_url = sodar_url[:-1]], run for
    at most [fuel] iterations. *)
Fixpoint strip_loop (fuel : nat) (sodar_url : string) : string :=
  match fuel with
  | O => sodar_url
  | S fuel' =>
      if Py.endswith sodar_url "/"
      then strip_loop fuel' (Py.drop_last sodar_url)
      else sodar_url
  end.

(** The loop with one iteration for every character of the URL. *)
Definition strip_slashes (sodar_url : string) : string :=
  strip_loop (String.length sodar_url) sodar_url.

(** Sending a request: it is recorded, and the service answers it knowing
    the requests sent before. *)
Definition requests_send (r : request) : M (response json) := λ w,
  match answer (sent (trace w)) r with
  | Some resp => (Ok resp, snd (emit (Sent r) w))
  | None => (Raise ConnectionError, snd (emit (Sent r) w))
  end.

(** [requests.get(url, headers=headers)] *)
Definition requests_get (url : string) (headers : list (string * string))
    : M (response json) :=
  requests_send {| method := GET; url := url; headers := headers;
                   data := [] |}.

(** [requests.post(url, data=data, headers=headers)] *)
Definition requests_post (url : string) (data headers : list (string * string))
    : M (response json) :=
  requests_send {| method := POST; url := url; headers := headers;
                   data := data |}.

(** [r.raise_for_status()] *)
Definition raise_for_status (r : response json) : M unit :=
  if bool_decide (400 ≤ status_code r < 600)%Z
  then raise (HTTPError (status_code r))
  else mret tt.

(** [r.json()] *)
Definition response_json (r : response json) : M json :=
  match body r with
  | Some j => mret j
  | None => raise (ValueError "Expecting value")
  end.

(** [cattr.structure(j, cls)] *)
Definition structure {A} (cls : json → option A) (j : json) : M A :=
  match cls j with
  | Some a => mret a
  | None => raise StructureError
  end.

Definition authorization (sodar_api_token : string) : list (string * string) :=
  [("Authorization", "Token " +:+ sodar_api_token)].

Definition _investigations_get (sodar_url sodar_api_token project_uuid : string)
    : M models.Investigation :=
  let sodar_url := strip_slashes sodar_url in
  let url := sodar_url +:+ "/samplesheets/api/investigation/retrieve/"
             +:+ project_uuid in
  log DEBUG "HTTP GET request to %s" [ArgStr url];;
  let headers := authorization sodar_api_token in
  r ← requests_get url headers;
  raise_for_status r;;
  j ← response_json r;
  structure structure_Investigation j.

Definition _samplesheets_get (sodar_url sodar_api_token project_uuid : string)
    : M json :=
  let sodar_url := strip_slashes sodar_url in
  let url := sodar_url +:+ "/samplesheets/api/export/json/"
             +:+ project_uuid in
  log DEBUG "HTTP GET request to %s" [ArgStr url];;
  let headers := authorization sodar_api_token in
  r ← requests_get url headers;
  raise_for_status r;;
  response_json r.

Definition _landingzones_list (sodar_url sodar_api_token project_uuid : string)
    : M (list models.LandingZone) :=
  let sodar_url := strip_slashes sodar_url in
  let url := sodar_url +:+ "/landingzones/api/list/" +:+ project_uuid in
  log DEBUG "HTTP GET request to %s" [ArgStr url];;
  let headers := authorization sodar_api_token in
  r ← requests_get url headers;
  raise_for_status r;;
  j ← response_json r;
  structure structure_LandingZones j.

Definition _landingzones_create (sodar_url sodar_api_token project_uuid : string)
    (assay_uuid : option string) : M models.LandingZone :=
  let sodar_url := strip_slashes sodar_url in
  assay_uuid ←
    (if negb (Py.truthy assay_uuid) then
       investigation ←
         _investigations_get sodar_url sodar_api_token project_uuid;
       let n_studies := length (models.studies investigation) in
       if bool_decide (n_studies ≠ 1) then
         log ERROR "Expected one study, found %d"
           [ArgInt (Z.of_nat n_studies)];;
         log INFO "Try specifying an explicit --assay parameter" [];;
         raise (Exception "Invalid number of studies in investigation!")
       else
         study ← index0 (Py.values (models.studies investigation));
         let n_assays := length (models.assays study) in
         if bool_decide (n_assays ≠ 1) then
           log ERROR "Expected one assay, found %d"
             [ArgInt (Z.of_nat n_assays)];;
           log INFO "Try specifying an explicit --assay parameter" [];;
           raise (Exception "Invalid number of assays in investigation!")
         else
           index0 (Py.keys (models.assays study))
     else mret (Py.str assay_uuid));
  let url := sodar_url +:+ "/landingzones/api/create/" +:+ project_uuid in
  log DEBUG "HTTP POST request to %s" [ArgStr url];;
  let headers := authorization sodar_api_token in
  let data := [("assay", assay_uuid)] in
  r ← requests_post url data headers;
  raise_for_status r;;
  j ← response_json r;
  structure structure_LandingZone j.

Definition _landingzones_move
    (sodar_url sodar_api_token landing_zone_uuid : string) : M unit :=
  let sodar_url := strip_slashes sodar_url in
  mret tt.

Record IsaData := {
  investigation : InvestigationInfo;
  investigation_filename : string;
  studies : Py.dict Study;
  assays : Py.dict Assay
}.

(** Modelled from the spec: the owning [Client] of a [_SheetClient] is not
    among the sources; it holds the base URL, the token and the default
    project UUID, which may be missing. *)
Record Client := {
  sodar_url : string;
  sodar_api_token : string;
  project_uuid : option string
}.

(** A reader's [read()]: the call is recorded, its exception raised. *)
Definition read {A} (rd : reader) (filename : string) (r : string + A) : M A :=
  emit (Read rd filename);;
  match r with
  | inr a => mret a
  | inl msg => raise (IsaTabError msg)
  end.

(** [_SheetClient.get_raw]; [owner] is [self.owner]. *)
Definition get_raw (owner : Client) (project_uuid : option string) : M json :=
  if negb (Py.truthy project_uuid)
     && negb (Py.truthy owner.(api.project_uuid))
  then raise (ParameterException
                "Both Client and method's project_uuid argument missing.")
  else _samplesheets_get owner.(sodar_url) owner.(sodar_api_token)
         (Py.str (Py.or_ project_uuid owner.(api.project_uuid))).

(** [_SheetClient.get] *)
Definition get (owner : Client) (project_uuid : option string) : M IsaData :=
  raw_data ← get_raw owner project_uuid;
  let raw_data := sheet raw_data in
  investigation ←
    read InvestigationReader (path (raw_investigation raw_data))
      (read_investigation (tsv (raw_investigation raw_data))
         (path (raw_investigation raw_data)));
  studies ←
    dict_comprehension
      (λ path details,
         read StudyReader path (read_study path (tsv details) path))
      (raw_studies raw_data) [];
  if bool_decide (1 < length studies) then
    raise (UnsupportedIsaTabFeatureException "More than one study found!")
  else
    study ← index0 (Py.values studies);
    assays ←
      dict_comprehension
        (λ path details,
           read AssayReader path
             (read_assay (file study) path (tsv details) path))
        (raw_assays raw_data) [];
    mret {| investigation := investigation;
            investigation_filename := path (raw_investigation raw_data);
            studies := studies;
            assays := assays |}.

End api.
End api.

(** * [cubi_sak/common.py] *)

Inductive color := white | cyan | green | red.

(** [difflib], [icdiff] and [termcolor]: the lines that
    [difflib.unified_diff(a, b, fromfile, tofile)] and
    [ConsoleDiff(cols, line_numbers=True).make_table(a, b, fromdesc, todesc,
    context=True, numlines=3)] generate, and
    [colored(text, color, attrs=("bold",))]. *)
Class Rendering := {
  unified_diff : list string → list string → string → string → list string;
  make_table : Z → list string → list string → string → string → list string;
  colored : string → color → string
}.

(** The files of the process: [file_of text] is the file that
    [pathlib.Path(text)] denotes when it is opened, with the current
    directory, links and the path's own spelling resolved ([./out.txt] and
    [out.txt] are one file). The file store [fs] is keyed by files. *)
Class Files := {
  file_of : string → string
}.

Module common.
Section common.
Context `{Rendering} `{Files}.

(** [struct.unpack("hh", ...)] on one field: the 16 bits of the number
    read as a signed number. *)
Definition int16 (n : Z) : Z := ((n + 32768) `mod` 65536 - 32768)%Z.

(** [get_terminal_columns]; [ioctl_gwinz(fd)] is the window size of the
    world with both fields unpacked as signed 16-bit numbers, [None] where
    the [ioctl] fails. A pair is true, [None] false. *)
Definition get_terminal_columns : M Z := λ w,
  let ioctl_gwinz (fd : Z) : option (Z * Z) :=
    match winsize w fd with
    | Some (rows, columns) => Some (int16 rows, int16 columns)
    | None => None
    end in
  let or_ (a b : option (Z * Z)) := if a is Some _ then a else b in
  let cr :=
    or_ (or_ (ioctl_gwinz 0%Z) (ioctl_gwinz 1%Z)) (ioctl_gwinz 2%Z) in
  match cr with
  | Some (_, columns) =>
      if bool_decide (columns > 0)%Z then (Ok columns, w) else (Ok 80%Z, w)
  | None => (Ok 80%Z, w)
  end.

(** [out_path: typing.Union[str, pathlib.Path]]; a [Path] is given by its
    [str()]. *)
Inductive path_arg :=
| PathStr (s : string)
| PathObj (s : string).

(** [str(out_path)] *)
Definition str (out_path : path_arg) : string :=
  match out_path with
  | PathStr s | PathObj s => s
  end.

(** [pathlib.Path(out_path)], as far as the files go: the file it
    denotes. *)
Definition Path (out_path : path_arg) : string := file_of (str out_path).

(** [out_path == "-"]: a [Path] never equals a [str]. *)
Definition is_dash (out_path : path_arg) : bool :=
  match out_path with
  | PathStr s => String.eqb s "-"
  | PathObj _ => false
  end.

(** [out_file]: whether it has a [buffer] attribute. *)
Record out_stream := { has_buffer : bool }.

(** The value [lines] is bound to: a generator with the lines it has yet
    to yield, or a list. *)
Inductive iterable :=
| generator (pending : list string)
| pylist (items : list string).

(** Truth value: a generator object is always true, a list when it is
    not empty. *)
Definition truth (o : iterable) : bool :=
  match o with
  | generator _ => true
  | pylist items => negb (bool_decide (items = []))
  end.

(** [difflib.unified_diff] and [ConsoleDiff.make_table] are generator
    functions. *)
Definition difflib_unified_diff (a b : list string) (fromfile tofile : string)
    : iterable :=
  generator (unified_diff a b fromfile tofile).

Definition icdiff_make_table (cols : Z) (a b : list string)
    (fromdesc todesc : string) : iterable :=
  generator (make_table cols a b fromdesc todesc).

(** The loop body run on each line in turn. *)
Fixpoint for_each (body : string → M unit) (items : list string) : M unit :=
  match items with
  | [] => mret tt
  | line :: items' => body line;; for_each body items'
  end.

(** [for line in lines: body]; what [lines] is afterwards: a generator is
    exhausted, a list is as before. *)
Definition for_in (lines : iterable) (body : string → M unit) : M iterable :=
  match lines with
  | generator pending => for_each body pending;; mret (generator [])
  | pylist items => for_each body items;; mret (pylist items)
  end.

(** The scratch file of [tempfile.NamedTemporaryFile(mode="w+t")]: the
    text stored and the position. It has a fresh name and is gone when
    the [with] block is left, so it is not part of [fs]. *)
Record tempfile := { stored : string; position : nat }.

(** The file as it is opened: empty. *)
Definition NamedTemporaryFile : tempfile := {| stored := ""; position := 0 |}.

(** [s[n:]] *)
Fixpoint from (n : nat) (s : string) : string :=
  match n, s with
  | O, _ => s
  | S n', String _ rest => from n' rest
  | S _, EmptyString => EmptyString
  end.

(** [sheet_file.write(text)] at the end of the file. *)
Definition write (sheet_file : tempfile) (text : string) : tempfile :=
  {| stored := stored sheet_file +:+ text;
     position := String.length (stored sheet_file +:+ text) |}.

(** [sheet_file.seek(0)] *)
Definition seek0 (sheet_file : tempfile) : tempfile :=
  {| stored := stored sheet_file; position := 0 |}.

(** [sheet_file.read()]: the text from the position on, as a text-mode
    read returns it; the position moves to the end. *)
Definition read (sheet_file : tempfile) : string * tempfile :=
  (Py.universal_newlines (from (position sheet_file) (stored sheet_file)),
   {| stored := stored sheet_file;
      position := String.length (stored sheet_file) |}).

(** [out_path_obj.exists()] *)
Definition exists_ (out_path_obj : string) : M bool := λ w,
  (Ok (bool_decide (is_Some (fs w !! out_path_obj))), w).

(** [with out_path_obj.open("rt") as inputf: inputf.read()]; reached only
    when the file exists. *)
Definition read_text (out_path_obj : string) : M string := λ w,
  (Ok (Py.universal_newlines (default "" (fs w !! out_path_obj))), w).

(** [with out_path_obj.open("wt") as output_file:
    shutil.copyfileobj(sheet_file, output_file)]: the file is truncated
    and receives the rest of the scratch file. *)
Definition copy_to_path (sheet_file : tempfile) (out_path_obj : string)
    : M unit := λ w,
  (Ok tt, {| fs := <[out_path_obj := fst (read sheet_file)]> (fs w);
             winsize := winsize w; stdin := stdin w; trace := trace w |}).

(** [shutil.copyfileobj(sheet_file, sys.stdout)]: the chunks written,
    taken together; nothing is written for an empty rest. *)
Definition copy_to_stdout (sheet_file : tempfile) : M unit :=
  let text := fst (read sheet_file) in
  if String.eqb text "" then mret tt else emit (StdoutWrite text).

(** [input(prompt)] *)
Definition input (prompt : string) : M string := λ w,
  let w' := snd (emit (Prompt prompt) w) in
  match stdin w with
  | [] => (Raise EOFError, w')
  | line :: rest =>
      (Ok line, {| fs := fs w'; winsize := winsize w'; stdin := rest;
                   trace := trace w' |})
  end.

(** [overwrite_helper]. The destination is read and written as the file
    that [pathlib.Path(out_path)] denotes, and named in the log and in the
    diff by [str(out_path)]; [out_file] defaults to [sys.stderr], a stream
    with a [buffer]. The result [tt] is [None]. *)
Definition overwrite_helper (out_path : path_arg) (contents : string)
    (do_write show_diff show_diff_side_by_side answer_yes : bool)
    (out_file : out_stream) : M unit :=
  let out_path_obj := Path out_path in
  let sheet_file := NamedTemporaryFile in
  let sheet_file := write sheet_file contents in
  sheet_file ←
    (if show_diff then
       readable ←
         (if negb (is_dash out_path) then exists_ out_path_obj
          else mret false);
       old_lines ←
         (if (readable : bool)
          then text ← read_text out_path_obj; mret (Py.splitlines text)
          else mret []);
       let sheet_file := seek0 sheet_file in
       let '(text, sheet_file) := read sheet_file in
       let new_lines := Py.splitlines text in
       lines ←
         (if negb show_diff_side_by_side then
            let lines :=
              difflib_unified_diff old_lines new_lines
                (str out_path) (str out_path) in
            for_in lines (λ line,
              if Py.startswith line "+++" || Py.startswith line "---" then
                emit (OutWrite (colored line white))
              else if Py.startswith line "@@" then
                emit (OutWrite (colored line cyan))
              else if Py.startswith line "+" then
                emit (OutWrite (colored line green +:+ String "010"%char ""))
              else if Py.startswith line "-" then
                emit (OutWrite (colored line red +:+ String "010"%char ""))
              else
                emit (OutWrite (line +:+ String "010"%char "")))
          else
            cols ← get_terminal_columns;
            let lines :=
              icdiff_make_table cols old_lines new_lines
                (str out_path) (str out_path) in
            for_in lines (λ line,
              let line := line +:+ String "010"%char "" in
              if has_buffer out_file
              then emit (OutBufferWrite (Py.encode_utf8 line))
              else emit (OutWrite line)));
       emit OutFlush;;
       (if negb (truth lines)
        then log INFO "File %s not changed, no diff..."
               [ArgStr (str out_path)]
        else mret tt);;
       mret sheet_file
     else mret sheet_file);
  if do_write then
    log INFO "About to write file contents to %s" [ArgStr (str out_path)];;
    let sheet_file := seek0 sheet_file in
    if is_dash out_path then
      copy_to_stdout sheet_file
    else
      log INFO "See above for the diff that will be applied." [];;
      ok ←
        (if negb answer_yes
         then answer ← input "Is this OK? [yN] ";
              mret (Py.startswith (Py.lower answer) "y")
         else mret false);
      if (ok : bool) then copy_to_path sheet_file out_path_obj else mret tt
  else mret tt.

End common.
End common.

(** * Vocabulary of the statements *)

(** An event that only shows text on [out_file]. *)
Definition is_display (e : event) : Prop :=
  match e with
  | OutWrite _ | OutBufferWrite _ | OutFlush => True
  | _ => False
  end.

(** All text the events copy to standard output. *)
Fixpoint stdout_text (evs : list event) : string :=
  match evs with
  | [] => ""
  | StdoutWrite text :: evs' => text +:+ stdout_text evs'
  | _ :: evs' => stdout_text evs'
  end.

(** The event is a confirmation prompt. *)
Definition is_prompt (e : event) : Prop :=
  match e with
  | Prompt _ => True
  | _ => False
  end.

(** The event is the "unchanged" notice of [overwrite_helper]. *)
Definition is_unchanged_notice (e : event) : Prop :=
  match e with
  | Log _ fmt _ => fmt = "File %s not changed, no diff..."
  | _ => False
  end.

(** The event is a POST request. *)
Definition is_post (e : event) : Prop :=
  match e with
  | Sent r => method r = POST
  | _ => False
  end.

(** The reader accepts every entry of the mapping. *)
Definition accepts {V R} (g : string → V → string + R) (items : Py.dict V)
    : Prop :=
  ∀ k d, (k, d) ∈ items → ∃ x, g k d = inr x.

(** The event is a call of the assay reader. *)
Definition is_assay_read (e : event) : Prop :=
  match e with
  | Read AssayReader _ => True
  | _ => False
  end.

(** The staged content: what the scratch file gives back once [contents]
    has been written to it and it has been rewound. *)
Definition staged (contents : string) : string :=
  fst (common.read (common.seek0 (common.write common.NamedTemporaryFile contents))).

(** The text has no carriage return. *)
Fixpoint no_cr (s : string) : bool :=
  match s with
  | EmptyString => true
  | String c rest => negb (Ascii.eqb c "013"%char) && no_cr rest
  end.

(** * A small instance of the collaborators, to run the functions on *)

Module demo.

Inductive value :=
| JSheet (raw : raw_sheet)
| JInvestigation (i : models.Investigation)
| JZone (z : models.LandingZone).

(** A service that answers every GET with status 200 and [j], and every
    POST with status 200 and a zone for the assay of the form. *)
Definition service (j : value) : Service := {|
  json := value;
  answer := λ _ r,
    Some {| status_code := 200;
            body := Some match method r with
                         | GET => j
                         | POST =>
                             JZone {| models.sodar_uuid := "zone";
                                      models.assay :=
                                        default "" (snd <$> head (data r)) |}
                         end |};
  structure_Investigation :=
    λ j, match j with JInvestigation i => Some i | _ => None end;
  structure_LandingZone :=
    λ j, match j with JZone z => Some z | _ => None end;
  structure_LandingZones :=
    λ j, match j with JZone z => Some [z] | _ => None end;
  sheet :=
    λ j, match j with
         | JSheet raw => raw
         | _ => {| raw_investigation := {| tsv := ""; path := "" |};
                   raw_studies := []; raw_assays := [] |}
         end
|}.

(** Readers that accept any text but the empty one, and return it. *)
Definition reader_of (text : string) : string + string :=
  if String.eqb text "" then inl "empty file" else inr text.

Definition isatab : IsaTab := {|
  InvestigationInfo := string;
  Study := string;
  Assay := string;
  file := λ study, study;
  read_investigation := λ text _, reader_of text;
  read_study := λ _ text _, reader_of text;
  read_assay := λ _ _ text _, reader_of text
|}.

(** A renderer that shows nothing for equal inputs and otherwise a
    header, the old lines as removed and the new ones as added. *)
Definition rendering : Rendering := {|
  unified_diff := λ a b fromfile tofile,
    if bool_decide (a = b) then []
    else (["--- " +:+ fromfile; "+++ " +:+ tofile]
          ++ map (String "-"%char) a ++ map (String "+"%char) b)%list;
  make_table := λ _ a b fromdesc todesc,
    if bool_decide (a = b) then []
    else ([fromdesc +:+ " " +:+ todesc] ++ a ++ b)%list;
  colored := λ text _, text
|}.

(** A process in whose directory a path may start with any number of
    [./]: the file is the path without them. *)
Fixpoint without_dot (text : string) : string :=
  match text with
  | String "."%char (String "/"%char rest) => without_dot rest
  | _ => text
  end.

Definition files : Files := {| file_of := without_dot |}.

Definition world0 : world :=
  {| fs := ∅; winsize := λ _, None; stdin := []; trace := [] |}.

Definition client : api.Client :=
  {| api.sodar_url := "https://sodar/";
     api.sodar_api_token := "secret";
     api.project_uuid := Some "p1" |}.

Definition entry (text : string) : sheet_entry :=
  {| tsv := text; path := "i.txt" |}.

(** Two studies, the first with an empty table. *)
Definition two_studies_one_unreadable : raw_sheet :=
  {| raw_investigation := entry "investigation";
     raw_studies := [("s1.txt", entry ""); ("s2.txt", entry "study 2")];
     raw_assays := [("a1.txt", entry "assay")] |}.

(** Two readable studies. *)
Definition two_studies : raw_sheet :=
  {| raw_investigation := entry "investigation";
     raw_studies := [("s1.txt", entry "study 1"); ("s2.txt", entry "study 2")];
     raw_assays := [("a1.txt", entry "assay")] |}.

(** No study. *)
Definition no_study : raw_sheet :=
  {| raw_investigation := entry "investigation";
     raw_studies := [];
     raw_assays := [("a1.txt", entry "assay")] |}.

(** One study with one assay. *)
Definition one_study_one_assay : models.Investigation :=
  {| models.studies :=
       [("s1.txt",
         {| models.study_file_name := "s1.txt";
            models.assays :=
              [("A1", {| models.assay_file_name := "a1.txt" |})] |})] |}.

End demo.

(** * Vocabulary of the further statements *)

(** The lines [overwrite_helper] takes as the old content of the
    destination: those of the file when the destination is not ["-"] and
    exists, none otherwise. *)
Definition old_lines_of `{Files} (out_path : common.path_arg) (w : world)
    : list string :=
  if negb (common.is_dash out_path)
     && bool_decide (is_Some (fs w !! common.Path out_path))
  then Py.splitlines
         (Py.universal_newlines (default "" (fs w !! common.Path out_path)))
  else [].

(** * More of [cubi_sak/common.py] *)

From stdpp Require Import sorting.

Module paths.

(** A [pathlib.Path] on POSIX: whether it starts at the root, and its parts
    below that. *)
Record Path := { absolute : bool; parts : list string }.

(** [path.root]: a [str]. *)
Definition root (p : Path) : string := if absolute p then "/" else "".

(** [path.parent]: the path without its last part; the top is its own
    parent. *)
Definition parent (p : Path) : Path :=
  {| absolute := absolute p; parts := removelast (parts p) |}.

(** [path / name] *)
Definition joinpath (p : Path) (name : string) : Path :=
  {| absolute := absolute p; parts := parts p ++ [name] |}.

(** ["/".join(parts)] *)
Fixpoint join_parts (l : list string) : string :=
  match l with
  | [] => ""
  | [x] => x
  | x :: rest => x +:+ "/" +:+ join_parts rest
  end.

(** [str(path)] *)
Definition str (p : Path) : string :=
  if absolute p then "/" +:+ join_parts (parts p)
  else match parts p with
       | [] => "."
       | _ => join_parts (parts p)
       end.

(** The two kinds of value that [find_base_path] compares and returns. *)
Inductive value :=
| VPath (p : Path)
| VStr (s : string).

(** [a != b]: a [Path] and a [str] are never equal. *)
Definition ne (a b : value) : bool :=
  match a, b with
  | VPath p, VPath q =>
      negb (bool_decide (absolute p = absolute q ∧ parts p = parts q))
  | VStr s, VStr t => negb (String.eqb s t)
  | _, _ => true
  end.

(** The loop of [find_base_path], run for at most [fuel] iterations;
    [None] when it is still running then. [exists_] is the file system:
    whether there is something at a path. *)
Fixpoint find_base_path_loop (exists_ : Path → bool) (fuel : nat)
    (base_path : Path) : option value :=
  match fuel with
  | O => None
  | S fuel' =>
      if ne (VPath base_path) (VStr (root base_path)) then
        if exists_ (joinpath base_path ".snappy_pipeline")
        then Some (VStr (str base_path))
        else find_base_path_loop exists_ fuel' (parent base_path)
      else Some (VPath base_path)
  end.

(** [os.path.join(a, b)] for a relative [b]. *)
Definition os_path_join (a b : string) : string :=
  if String.eqb a "" then b
  else if Py.endswith a "/" then a +:+ b
  else a +:+ "/" +:+ b.

(** [s[-1]], when [s] is not empty. *)
Fixpoint last_char (s : string) : option ascii :=
  match s with
  | EmptyString => None
  | String c EmptyString => Some c
  | String _ rest => last_char rest
  end.

(** [while len(path) > 1 and path[-1] == "/": path = path[:-1]], run for
    at most [fuel] iterations. *)
Fixpoint trim_loop (fuel : nat) (path : string) : string :=
  match fuel with
  | O => path
  | S fuel' =>
      if bool_decide (1 < String.length path)%nat
         && bool_decide (last_char path = Some "/"%char)
      then trim_loop fuel' (Py.drop_last path)
      else path
  end.

(** The loop with one iteration for every character of the path. *)
Definition trim (path : string) : string :=
  trim_loop (String.length path) path.

(** Code-point order on characters and strings, as [sorted] uses it. *)
Fixpoint str_le (a b : string) : bool :=
  match a, b with
  | EmptyString, _ => true
  | String _ _, EmptyString => false
  | String x a', String y b' =>
      if (nat_of_ascii x <? nat_of_ascii y)%nat then true
      else if (nat_of_ascii y <? nat_of_ascii x)%nat then false
      else str_le a' b'
  end.

(** [sorted(paths)] *)
Definition sorted (l : list string) : list string :=
  merge_sort (λ a b, Is_true (str_le a b)) l.

(** [yield_files_recursively], consumed to its end: the values yielded.
    [glob] is [glob.glob] on the file system; with [print_] each value is
    also printed to [file], an [OutWrite] of the value and a newline. *)
Definition yield_files_recursively (glob : string → list string)
    (path : string) (print_ : bool) : M (list string) :=
  let path := trim path in
  let paths := glob (os_path_join path "**") in
  foldr (λ p rest,
           let p := common.from (String.length path + 1) p in
           (if print_ then emit (OutWrite (p +:+ String "010"%char ""))
            else mret tt);;
           ps ← rest; mret (p :: ps))
    (mret []) (sorted paths).

End paths.

Module config.

(** [d.get(key)]: the value under [key], if any. *)
Fixpoint lookup {V} (d : Py.dict V) (key : string) : option V :=
  match d with
  | [] => None
  | (k, v) :: d' => if String.eqb k key then Some v else lookup d' key
  end.

(** The attributes of [args] that [CommonConfig.create] reads. *)
Record Namespace := {
  args_verbose : bool;
  args_sodar_api_token : option string;
  args_sodar_server_url : option string
}.

(** [CommonConfig] *)
Record CommonConfig := {
  verbose : bool;
  sodar_api_token : string;
  sodar_server_url : string;
  sodar_api_key : string
}.

(** What [create] does: it returns a configuration or raises [KeyError]
    for a key. *)
Inductive created :=
| Config (c : CommonConfig)
| KeyError (key : string).

(** [toml_config.get("global", {})[key]], after [toml_config or {}]. *)
Definition global (toml_config : option (Py.dict (Py.dict string)))
    (key : string) : option string :=
  lookup (default [] (lookup (default [] toml_config) "global")) key.

(** [CommonConfig.create]; the keyword arguments are evaluated in the
    order they are written, and [a or d[key]] looks [key] up only when [a]
    is false. *)
Definition create (args : Namespace)
    (toml_config : option (Py.dict (Py.dict string))) : created :=
  let either (a : option string) (key : string) : option string :=
    if Py.truthy a then a else global toml_config key in
  match either (args_sodar_api_token args) "sodar_api_token" with
  | None => KeyError "sodar_api_token"
  | Some token =>
      match either (args_sodar_server_url args) "sodar_server_url" with
      | None => KeyError "sodar_server_url"
      | Some server_url =>
          match global toml_config "sodar_api_key" with
          | None => KeyError "sodar_api_key"
          | Some api_key =>
              Config {| verbose := args_verbose args;
                        sodar_api_token := token;
                        sodar_server_url := server_url;
                        sodar_api_key := api_key |}
          end
      end
  end.

(** [n * "*"]; nothing for a negative [n]. *)
Definition stars (n : Z) : string :=
  Nat.iter (Z.to_nat n) (String "*"%char) "".

(** [value[:4] + (len(value) - 4) * "*"]: the text the [repr] of the
    token field shows, before it is quoted. *)
Definition masked (value : string) : string :=
  String.substring 0 4 value
  +:+ stars (Z.of_nat (String.length value) - 4).

End config.

Module irods.

(** What [check_irods_icommands] does: it returns, silently or after a
    warning, or raises; the message is the pair of the format and the
    joined names. *)
Inductive outcome :=
| Quiet
| Warned (msg : string * string)
| Raised (msg : string * string).

Definition executables : list string := ["iinit"; "iput"; "iget"; "irsync"].

(** [", ".join(l)] *)
Fixpoint join (l : list string) : string :=
  match l with
  | [] => ""
  | [x] => x
  | x :: rest => x +:+ ", " +:+ join rest
  end.

(** [check_irods_icommands]; [which prog] is whether [which] finds the
    program. *)
Definition check_irods_icommands (which : string → bool) (warn_only : bool)
    : outcome :=
  let missing := filter (λ prog, which prog = false) executables in
  if bool_decide (missing ≠ []) then
    let msg := ("Could not find irods-icommands executables: %s",
                join missing) in
    if warn_only then Warned msg else Raised msg
  else Quiet.

End irods.

Module cwd.

(** The process as [working_directory] sees it: the current directory and
    the directories there are. *)
Record process := { current : string; directories : gset string }.

Inductive error :=
| FileNotFoundError (path : string)
| Other (e : exn).

(** [os.chdir(path)] *)
Definition chdir (path : string) (p : process) : option error * process :=
  if bool_decide (path ∈ directories p)
  then (None, {| current := path; directories := directories p |})
  else (Some (FileNotFoundError path), p).

(** [with working_directory(path): body]: what is raised, if anything, and
    the process afterwards. [body] is the block; the [finally] clause
    changes back whether or not the block raised, and what it raises
    itself replaces what the block raised. *)
Definition working_directory (path : string)
    (body : process → option error * process) (p : process)
    : option error * process :=
  let prev_cwd := current p in
  match chdir path p with
  | (Some e, p1) => (Some e, p1)
  | (None, p1) =>
      let '(raised, p2) := body p1 in
      match chdir prev_cwd p2 with
      | (Some e, p3) => (Some e, p3)
      | (None, p3) => (raised, p3)
      end
  end.

End cwd.

(** * Further instances, to run the functions on *)

Module samples.

(** A service that is down: every request is answered with status 503 and
    no body. *)
Definition outage : Service := {|
  json := unit;
  answer := λ _ _, Some {| status_code := 503; body := None |};
  structure_Investigation := λ _, None;
  structure_LandingZone := λ _, None;
  structure_LandingZones := λ _, None;
  sheet := λ _, {| raw_investigation := {| tsv := ""; path := "" |};
                   raw_studies := []; raw_assays := [] |}
|}.

(** One study with two assays. *)
Definition one_study : raw_sheet :=
  {| raw_investigation := demo.entry "investigation";
     raw_studies := [("s1.txt", demo.entry "study 1")];
     raw_assays := [("a1.txt", demo.entry "assay 1");
                    ("a2.txt", demo.entry "assay 2")] |}.

(** A terminal at its end of input, and one where [Yes] is typed. *)
Definition typed (lines : list string) : world :=
  {| fs := ∅; winsize := λ _, None; stdin := lines; trace := [] |}.

(** The same with a file [out.txt] that holds other text. *)
Definition typed_with_file (lines : list string) : world :=
  {| fs := {["out.txt" := "old"]}; winsize := λ _, None; stdin := lines;
     trace := [] |}.

(** A world with a file named ["-"]. *)
Definition dash_file : world :=
  {| fs := {["-" := "old"]}; winsize := λ _, None; stdin := [];
     trace := [] |}.

(** A file system whose only marker is [/home/project/.snappy_pipeline]. *)
Definition marker (p : paths.Path) : bool :=
  paths.absolute p
  && bool_decide (paths.parts p = ["home"; "project"; ".snappy_pipeline"]).

Definition lib : paths.Path :=
  {| paths.absolute := true;
     paths.parts := ["home"; "project"; "src"; "lib"] |}.

(** A [glob] that finds two files under [data], and one that finds two
    entries under the root. *)
Definition glob_data (pattern : string) : list string :=
  if String.eqb pattern "data/**" then ["data/b.txt"; "data/a.txt"] else [].

Definition glob_root (pattern : string) : list string :=
  if String.eqb pattern "/**" then ["/etc"; "/bin"] else [].

(** Arguments that give a token and a server URL, and a configuration file
    that gives other ones and the key. *)
Definition args : config.Namespace :=
  {| config.args_verbose := true;
     config.args_sodar_api_token := Some "token-from-args";
     config.args_sodar_server_url := Some "https://args/" |}.

Definition toml : option (Py.dict (Py.dict string)) :=
  Some [("global", [("sodar_api_token", "token-from-file");
                    ("sodar_server_url", "https://file/");
                    ("sodar_api_key", "key")])].

(** A process in [/home], and a block that changes directory itself and
    then raises. *)
Definition at_home : cwd.process :=
  {| cwd.current := "/home"; cwd.directories := {["/"; "/home"; "/tmp"]} |}.

Definition wandering (p : cwd.process) : option cwd.error * cwd.process :=
  (Some (cwd.Other EOFError),
   {| cwd.current := "/"; cwd.directories := cwd.directories p |}).

End samples.

(** * Properties *)

Local Open Scope nat_scope.
Local Open Scope list_scope.

(** ** Stripping trailing slashes *)

Section strip.

Lemma endswith_app_slash (s : string) : Py.endswith (s +:+ "/") "/" = true.
Proof.
  induction s as [|c s IH]; [reflexivity|].
  simpl. rewrite IH. apply orb_true_r.
Qed.

Lemma drop_last_app_slash (s : string) : Py.drop_last (s +:+ "/") = s.
Proof.
  induction s as [|c s IH]; [reflexivity|].
  simpl. rewrite IH. by destruct s.
Qed.

Lemma endswith_cons (c c' : ascii) (s : string) :
  Py.endswith (String c (String c' s)) "/" = Py.endswith (String c' s) "/".
Proof.
  change (Py.endswith (String c (String c' s)) "/")
    with (String.eqb (String c (String c' s)) "/"
          || Py.endswith (String c' s) "/").
  replace (String.eqb (String c (String c' s)) "/") with false; [done|].
  simpl. by destruct (Ascii.eqb c "/"%char).
Qed.

Lemma drop_last_cons (c c' : ascii) (s : string) :
  Py.drop_last (String c (String c' s)) =
  String c (Py.drop_last (String c' s)).
Proof. reflexivity. Qed.

(** A string that ends with a slash is its [s[:-1]] followed by one. *)
Lemma endswith_slash_inv (s : string) :
  Py.endswith s "/" = true → s = Py.drop_last s +:+ "/".
Proof.
  induction s as [|c s IH]; [done|].
  destruct s as [|c' s'].
  - simpl. rewrite orb_false_r. intros Hc.
    destruct (Ascii.eqb_spec c "/"%char) as [->|]; done.
  - rewrite endswith_cons, drop_last_cons. intros Hs.
    change (String c (String c' s') =
            String c (Py.drop_last (String c' s') +:+ "/")).
    f_equal. by apply IH.
Qed.

Lemma length_drop_last (s : string) :
  String.length (Py.drop_last s) = pred (String.length s).
Proof.
  induction s as [|c s IH]; [reflexivity|].
  destruct s as [|c' s']; [reflexivity|].
  rewrite drop_last_cons.
  change (S (String.length (Py.drop_last (String c' s'))) =
          S (String.length s')).
  rewrite IH. reflexivity.
Qed.

(** The loop is over after at most one iteration for every character:
    more fuel changes nothing. *)
Lemma strip_loop_fuel (fuel fuel' : nat) (s : string) :
  (String.length s ≤ fuel)%nat → (String.length s ≤ fuel')%nat →
  api.strip_loop fuel s = api.strip_loop fuel' s.
Proof.
  revert fuel' s. induction fuel as [|fuel IH]; intros fuel' s Hl Hl'.
  - destruct s; [|simpl in Hl; lia]. by destruct fuel'.
  - destruct fuel' as [|fuel'].
    { destruct s; [done|simpl in Hl'; lia]. }
    simpl. destruct (Py.endswith s "/"); [|done].
    apply IH; rewrite length_drop_last; lia.
Qed.

Lemma strip_loop_enough (fuel : nat) (s : string) :
  (String.length s ≤ fuel)%nat →
  api.strip_loop fuel s = api.strip_slashes s.
Proof. intros Hl. by apply strip_loop_fuel. Qed.

Lemma strip_slashes_step (s : string) :
  api.strip_slashes s =
  if Py.endswith s "/" then api.strip_slashes (Py.drop_last s) else s.
Proof.
  destruct s as [|c s]; [reflexivity|].
  unfold api.strip_slashes at 1. cbn [String.length api.strip_loop].
  destruct (Py.endswith (String c s) "/"); [|reflexivity].
  apply strip_loop_enough. rewrite length_drop_last. simpl. lia.
Qed.

(** When the loop is left the URL does not end with a slash. *)
Lemma strip_slashes_done (s : string) :
  Py.endswith (api.strip_slashes s) "/" = false.
Proof.
  remember (String.length s) as n eqn:Hn.
  revert s Hn. induction n as [n IH] using lt_wf_ind. intros s ->.
  rewrite strip_slashes_step. destruct (Py.endswith s "/") eqn:E; [|done].
  apply (IH (String.length (Py.drop_last s))); [|done].
  rewrite length_drop_last. destruct s; [done|simpl; lia].
Qed.

Lemma strip_slashes_fixed (s : string) :
  Py.endswith s "/" = false → api.strip_slashes s = s.
Proof. intros E. rewrite strip_slashes_step. by rewrite E. Qed.

Lemma strip_slashes_idemp (s : string) :
  api.strip_slashes (api.strip_slashes s) = api.strip_slashes s.
Proof. apply strip_slashes_fixed, strip_slashes_done. Qed.

Lemma strip_slashes_app_slash (s : string) :
  api.strip_slashes (s +:+ "/") = api.strip_slashes s.
Proof.
  rewrite strip_slashes_step, endswith_app_slash.
  by rewrite drop_last_app_slash.
Qed.

Lemma app_slashes_S (s : string) (k : nat) :
  s +:+ Py.slashes (S k) = (s +:+ "/") +:+ Py.slashes k.
Proof.
  induction s as [|c s IH]; [reflexivity|].
  change (String c (s +:+ Py.slashes (S k)) =
          String c ((s +:+ "/") +:+ Py.slashes k)).
  by rewrite IH.
Qed.

Lemma app_empty_r (s : string) : s +:+ "" = s.
Proof.
  induction s as [|c s IH]; [reflexivity|].
  change (String c (s +:+ "") = String c s). by rewrite IH.
Qed.

Lemma strip_slashes_app_slashes (s : string) (k : nat) :
  api.strip_slashes (s +:+ Py.slashes k) = api.strip_slashes s.
Proof.
  revert s. induction k as [|k IH]; intros s.
  - cbn [Py.slashes]. by rewrite app_empty_r.
  - rewrite app_slashes_S, IH. apply strip_slashes_app_slash.
Qed.

Lemma slashes_snoc (s : string) (k : nat) :
  (s +:+ Py.slashes k) +:+ "/" = s +:+ Py.slashes (S k).
Proof.
  revert s. induction k as [|k IH]; intros s.
  - simpl Py.slashes. by rewrite app_empty_r.
  - by rewrite (app_slashes_S s k), IH, <- app_slashes_S.
Qed.

(** What the loop removes is a run of slashes. *)
Lemma strip_slashes_decompose (s : string) :
  ∃ k, s = api.strip_slashes s +:+ Py.slashes k.
Proof.
  remember (String.length s) as n eqn:Hn.
  revert s Hn. induction n as [n IH] using lt_wf_ind. intros s ->.
  rewrite strip_slashes_step. destruct (Py.endswith s "/") eqn:E.
  - destruct (IH (String.length (Py.drop_last s))
                ltac:(rewrite length_drop_last; destruct s; [done|simpl; lia])
                (Py.drop_last s) eq_refl) as [k Hk].
    exists (S k). rewrite <- slashes_snoc, <- Hk.
    by apply endswith_slash_inv.
  - exists 0. simpl Py.slashes. by rewrite app_empty_r.
Qed.

End strip.

(** ** Requests and what they leave in the world *)

Section requests.
Context `{Service} `{IsaTab}.

Lemma truthy_false (x : option string) : Py.truthy x = false ↔ Py.absent x.
Proof.
  unfold Py.absent. destruct x as [s|]; simpl.
  - destruct (String.eqb_spec s "") as [->|Hne]; simpl;
      split; [by right|done|done|intros [?|?]; congruence].
  - split; [by left|done].
Qed.

Lemma add_events_nil (w : world) : add_events w [] = w.
Proof. destruct w. unfold add_events. simpl. by rewrite app_nil_r. Qed.

Lemma add_events_app (w : world) (evs evs' : list event) :
  add_events (add_events w evs) evs' = add_events w (evs ++ evs').
Proof. unfold add_events. simpl. by rewrite app_assoc. Qed.

(** Checking the status, decoding and structuring a response touch
    nothing. *)
Lemma decode_world {A} (cls : json → option A) (resp : response json)
    (w : world) :
  snd ((api.raise_for_status resp;;
        j ← api.response_json resp; api.structure cls j) w) = w.
Proof.
  unfold mbind, M_bind, api.raise_for_status, api.response_json,
    api.structure.
  case_bool_decide; simpl; [done|].
  destruct (body resp) as [j|]; simpl; [|done].
  by destruct (cls j).
Qed.

(** A logged request leaves the log record and the request, answered or
    not. *)
Lemma logged_request_world {A} (lvl : level) (fmt : string)
    (args : list log_arg) (r : request) (k : response json → M A)
    (w : world) :
  (∀ resp w', snd (k resp w') = w') →
  snd ((log lvl fmt args;; resp ← api.requests_send r; k resp) w) =
  add_events w [Log lvl fmt args; Sent r].
Proof.
  intros Hk. unfold mbind, M_bind, log, emit, api.requests_send. simpl.
  destruct (answer _ _) as [resp|]; simpl.
  - by rewrite Hk, add_events_app.
  - by rewrite add_events_app.
Qed.

Lemma bind_ok {A B} (m : M A) (f : A → M B) (w w' : world) (a : A) :
  m w = (Ok a, w') → (m ≫= f) w = f a w'.
Proof. intros E. unfold mbind, M_bind. by rewrite E. Qed.

Lemma bind_raise {A B} (m : M A) (f : A → M B) (w w' : world) (e : exn) :
  m w = (Raise e, w') → (m ≫= f) w = (Raise e, w').
Proof. intros E. unfold mbind, M_bind. by rewrite E. Qed.

Lemma sent_app (t t' : list event) : sent (t ++ t') = sent t ++ sent t'.
Proof. unfold sent. apply omap_app. Qed.

Lemma investigations_get_strip (u tok p : string) :
  api._investigations_get (api.strip_slashes u) tok p
  = api._investigations_get u tok p.
Proof. unfold api._investigations_get. by rewrite strip_slashes_idemp. Qed.

(** [_investigations_get] logs the URL and sends one GET; nothing else
    reaches the world, whatever the answer. *)
Lemma investigations_get_world (u tok p : string) (w : world) :
  snd (api._investigations_get u tok p w) =
  add_events w
    [Log DEBUG "HTTP GET request to %s"
       [ArgStr (api.strip_slashes u
                +:+ "/samplesheets/api/investigation/retrieve/" +:+ p)];
     Sent {| method := GET;
             url := api.strip_slashes u
                    +:+ "/samplesheets/api/investigation/retrieve/" +:+ p;
             headers := api.authorization tok;
             data := [] |}].
Proof.
  unfold api._investigations_get, api.requests_get.
  apply logged_request_world. intros resp w'. apply decode_world.
Qed.

Lemma samplesheets_get_world (u tok p : string) (w : world) :
  snd (api._samplesheets_get u tok p w) =
  add_events w
    [Log DEBUG "HTTP GET request to %s"
       [ArgStr (api.strip_slashes u
                +:+ "/samplesheets/api/export/json/" +:+ p)];
     Sent {| method := GET;
             url := api.strip_slashes u
                    +:+ "/samplesheets/api/export/json/" +:+ p;
             headers := api.authorization tok;
             data := [] |}].
Proof.
  unfold api._samplesheets_get, api.requests_get.
  apply logged_request_world. intros resp w'.
  unfold mbind, M_bind, api.raise_for_status, api.response_json.
  case_bool_decide; simpl; [done|]. by destruct (body resp).
Qed.

(** [_samplesheets_get] raises what the transport raises, never a
    [ParameterException]. *)
Lemma samplesheets_get_not_parameter (u tok p msg : string) (w : world) :
  fst (api._samplesheets_get u tok p w) ≠ Raise (ParameterException msg).
Proof.
  unfold api._samplesheets_get, mbind, M_bind, log, emit,
    api.requests_get, api.requests_send. simpl.
  destruct (answer _ _) as [resp|]; simpl; [|done].
  unfold api.raise_for_status. case_bool_decide; simpl; [done|].
  unfold api.response_json. by destruct (body resp).
Qed.

End requests.

(** ** The entry points and the base URL *)

Section entry_points.
Context `{Service} `{IsaTab}.

(** [_landingzones_list] logs the URL and sends one GET; nothing else
    reaches the world, whatever the answer. *)
Lemma landingzones_list_world (u tok p : string) (w : world) :
  snd (api._landingzones_list u tok p w) =
  add_events w
    [Log DEBUG "HTTP GET request to %s"
       [ArgStr (api.strip_slashes u +:+ "/landingzones/api/list/" +:+ p)];
     Sent {| method := GET;
             url := api.strip_slashes u +:+ "/landingzones/api/list/" +:+ p;
             headers := api.authorization tok;
             data := [] |}].
Proof.
  unfold api._landingzones_list, api.requests_get.
  apply logged_request_world. intros resp w'. apply decode_world.
Qed.

(** The requests of [_landingzones_create]: with an assay the one POST;
    without, the GET for the investigation and then at most the POST. *)
Lemma landingzones_create_sent (u tok p : string)
    (assay_uuid : option string) (w : world) :
  let get_req :=
    {| method := GET;
       url := api.strip_slashes u
              +:+ "/samplesheets/api/investigation/retrieve/" +:+ p;
       headers := api.authorization tok;
       data := [] |} in
  let post_req := λ a : string,
    {| method := POST;
       url := api.strip_slashes u +:+ "/landingzones/api/create/" +:+ p;
       headers := api.authorization tok;
       data := [("assay", a)] |} in
  ∃ reqs,
    sent (trace (snd (api._landingzones_create u tok p assay_uuid w)))
    = sent (trace w) ++ reqs
    ∧ ((∃ a, assay_uuid = Some a ∧ a ≠ "" ∧ reqs = [post_req a])
       ∨ (Py.absent assay_uuid
          ∧ (reqs = [get_req] ∨ ∃ a, reqs = [get_req; post_req a]))).
Proof.
  intros get_req post_req.
  enough (∃ evs,
            snd (api._landingzones_create u tok p assay_uuid w)
            = add_events w evs
            ∧ ((∃ a, assay_uuid = Some a ∧ a ≠ "" ∧ sent evs = [post_req a])
               ∨ (Py.absent assay_uuid
                  ∧ (sent evs = [get_req]
                     ∨ ∃ a, sent evs = [get_req; post_req a]))))
    as (evs & -> & Hevs).
  { exists (sent evs). split; [apply sent_app|exact Hevs]. }
  destruct (Py.truthy assay_uuid) eqn:Ha.
  - destruct assay_uuid as [a|]; [|done].
    unfold api._landingzones_create. rewrite Ha.
    change (negb true) with false. cbv iota.
    erewrite bind_ok by reflexivity. unfold api.requests_post.
    rewrite logged_request_world by (intros; apply decode_world).
    eexists. split; [reflexivity|]. left. exists a.
    split; [done|]. split; [by intros ->|reflexivity].
  - assert (Py.absent assay_uuid) as Habs by (by apply truthy_false).
    unfold api._landingzones_create. rewrite Ha.
    change (negb false) with true. cbv iota.
    pose proof (investigations_get_world u tok p w) as Hw1.
    rewrite <- investigations_get_strip in Hw1.
    destruct (api._investigations_get (api.strip_slashes u) tok p w)
      as [[inv|e] w1] eqn:Hget; simpl in Hw1; subst w1.
    2:{ erewrite bind_raise by (erewrite bind_raise; done).
        eexists. split; [reflexivity|]. right. split; [done|]. by left. }
    destruct (models.studies inv) as [|[spath study] [|? ?]] eqn:Hst.
    + erewrite bind_raise.
      2:{ erewrite bind_ok by exact Hget. rewrite Hst. reflexivity. }
      rewrite !add_events_app.
      eexists. split; [reflexivity|]. right. split; [done|]. by left.
    + destruct (models.assays study) as [|[apath a] [|? ?]] eqn:Has.
      * erewrite bind_raise.
        2:{ erewrite bind_ok by exact Hget. rewrite Hst. simpl.
            erewrite bind_ok by reflexivity. rewrite Has. reflexivity. }
        rewrite !add_events_app.
        eexists. split; [reflexivity|]. right. split; [done|]. by left.
      * erewrite bind_ok.
        2:{ erewrite bind_ok by exact Hget. rewrite Hst. simpl.
            erewrite bind_ok by reflexivity. rewrite Has. reflexivity. }
        unfold api.requests_post.
        rewrite logged_request_world by (intros; apply decode_world).
        rewrite !add_events_app.
        eexists. split; [reflexivity|]. right. split; [done|].
        right. by exists apath.
      * erewrite bind_raise.
        2:{ erewrite bind_ok by exact Hget. rewrite Hst. simpl.
            erewrite bind_ok by reflexivity. rewrite Has. reflexivity. }
        rewrite !add_events_app.
        eexists. split; [reflexivity|]. right. split; [done|]. by left.
    + erewrite bind_raise.
      2:{ erewrite bind_ok by exact Hget. rewrite Hst. reflexivity. }
      rewrite !add_events_app.
      eexists. split; [reflexivity|]. right. split; [done|]. by left.
Qed.

(** C7. Every entry point that takes a base URL strips all its trailing
    slashes before it builds the request path. The stripped URL does not
    end with a slash and differs from the given one by a run of slashes
    only, and stripping twice is stripping once. Every request goes to the
    stripped URL followed by the path: the one GET of [_investigations_get],
    of [_samplesheets_get], of [_landingzones_list] and of [get_raw] on the
    sample-sheet client, and the requests of [_landingzones_create] (the
    POST alone when the assay is given, else the GET for the investigation
    and after it at most the POST). So each of them, [_landingzones_move]
    included, does the same for a base URL and for that URL followed by any
    number of slashes. *)
Theorem url_normalization (sodar_url token project_uuid : string) (k : nat) :
  (Py.endswith (api.strip_slashes sodar_url) "/" = false
   ∧ ∃ n, sodar_url = api.strip_slashes sodar_url +:+ Py.slashes n)
  ∧ api.strip_slashes (api.strip_slashes sodar_url)
    = api.strip_slashes sodar_url
  ∧ (∀ w,
       trace (snd (api._investigations_get sodar_url token project_uuid w))
       = trace w ++
         [Log DEBUG "HTTP GET request to %s"
            [ArgStr (api.strip_slashes sodar_url
                     +:+ "/samplesheets/api/investigation/retrieve/"
                     +:+ project_uuid)];
          Sent {| method := GET;
                  url := api.strip_slashes sodar_url
                         +:+ "/samplesheets/api/investigation/retrieve/"
                         +:+ project_uuid;
                  headers := api.authorization token;
                  data := [] |}])
  ∧ api._investigations_get (sodar_url +:+ Py.slashes k) token project_uuid
    = api._investigations_get sodar_url token project_uuid
  ∧ api._samplesheets_get (sodar_url +:+ Py.slashes k) token project_uuid
    = api._samplesheets_get sodar_url token project_uuid
  ∧ api._landingzones_list (sodar_url +:+ Py.slashes k) token project_uuid
    = api._landingzones_list sodar_url token project_uuid
  ∧ (∀ assay_uuid,
       api._landingzones_create (sodar_url +:+ Py.slashes k) token
         project_uuid assay_uuid
       = api._landingzones_create sodar_url token project_uuid assay_uuid)
  ∧ api._landingzones_move (sodar_url +:+ Py.slashes k) token project_uuid
    = api._landingzones_move sodar_url token project_uuid
  ∧ (∀ default_uuid,
       api.get_raw {| api.sodar_url := sodar_url +:+ Py.slashes k;
                      api.sodar_api_token := token;
                      api.project_uuid := default_uuid |}
       = api.get_raw {| api.sodar_url := sodar_url;
                        api.sodar_api_token := token;
                        api.project_uuid := default_uuid |})
  ∧ (∀ w,
       trace (snd (api._samplesheets_get sodar_url token project_uuid w))
       = trace w ++
         [Log DEBUG "HTTP GET request to %s"
            [ArgStr (api.strip_slashes sodar_url
                     +:+ "/samplesheets/api/export/json/" +:+ project_uuid)];
          Sent {| method := GET;
                  url := api.strip_slashes sodar_url
                         +:+ "/samplesheets/api/export/json/"
                         +:+ project_uuid;
                  headers := api.authorization token;
                  data := [] |}])
  ∧ (∀ w,
       trace (snd (api._landingzones_list sodar_url token project_uuid w))
       = trace w ++
         [Log DEBUG "HTTP GET request to %s"
            [ArgStr (api.strip_slashes sodar_url
                     +:+ "/landingzones/api/list/" +:+ project_uuid)];
          Sent {| method := GET;
                  url := api.strip_slashes sodar_url
                         +:+ "/landingzones/api/list/" +:+ project_uuid;
                  headers := api.authorization token;
                  data := [] |}])
  ∧ (∀ assay_uuid w,
       ∃ reqs,
         sent (trace (snd (api._landingzones_create sodar_url token
                             project_uuid assay_uuid w)))
         = sent (trace w) ++ reqs
         ∧ ((∃ a, assay_uuid = Some a ∧ a ≠ ""
                  ∧ reqs
                    = [{| method := POST;
                          url := api.strip_slashes sodar_url
                                 +:+ "/landingzones/api/create/"
                                 +:+ project_uuid;
                          headers := api.authorization token;
                          data := [("assay", a)] |}])
            ∨ (Py.absent assay_uuid
               ∧ (reqs
                  = [{| method := GET;
                        url := api.strip_slashes sodar_url
                               +:+ "/samplesheets/api/investigation/retrieve/"
                               +:+ project_uuid;
                        headers := api.authorization token;
                        data := [] |}]
                  ∨ ∃ a,
                      reqs
                      = [{| method := GET;
                            url := api.strip_slashes sodar_url
                                   +:+ "/samplesheets/api/investigation/retrieve/"
                                   +:+ project_uuid;
                            headers := api.authorization token;
                            data := [] |};
                         {| method := POST;
                            url := api.strip_slashes sodar_url
                                   +:+ "/landingzones/api/create/"
                                   +:+ project_uuid;
                            headers := api.authorization token;
                            data := [("assay", a)] |}]))))
  ∧ (∀ default_uuid given w,
       ¬ (Py.absent given ∧ Py.absent default_uuid) →
       trace (snd (api.get_raw {| api.sodar_url := sodar_url;
                                  api.sodar_api_token := token;
                                  api.project_uuid := default_uuid |}
                     given w))
       = trace w ++
         [Log DEBUG "HTTP GET request to %s"
            [ArgStr (api.strip_slashes sodar_url
                     +:+ "/samplesheets/api/export/json/"
                     +:+ Py.str (Py.or_ given default_uuid))];
          Sent {| method := GET;
                  url := api.strip_slashes sodar_url
                         +:+ "/samplesheets/api/export/json/"
                         +:+ Py.str (Py.or_ given default_uuid);
                  headers := api.authorization token;
                  data := [] |}]).
Proof.
  split; [split; [apply strip_slashes_done|apply strip_slashes_decompose]|].
  split; [apply strip_slashes_idemp|].
  split; [intros w; by rewrite investigations_get_world|].
  do 6 (split;
        [unfold api._investigations_get, api._samplesheets_get,
           api._landingzones_list, api._landingzones_create,
           api._landingzones_move, api.get_raw, api._samplesheets_get;
         simpl; rewrite ?strip_slashes_app_slashes; done|]).
  split; [intros w; by rewrite samplesheets_get_world|].
  split; [intros w; by rewrite landingzones_list_world|].
  split; [intros assay_uuid w; apply landingzones_create_sent|].
  intros default_uuid given w Hgiven.
  unfold api.get_raw. simpl.
  destruct (Py.truthy given) eqn:Hg; simpl.
  - by rewrite samplesheets_get_world.
  - destruct (Py.truthy default_uuid) eqn:Hd; simpl.
    + by rewrite samplesheets_get_world.
    + destruct Hgiven. split; by apply truthy_false.
Qed.

(** C8. [_landingzones_move] strips the URL and does nothing else: it
    returns [None] and leaves the world as it was, so no request is sent,
    no file is touched and nothing is logged. *)
Theorem landingzones_move_only_normalizes
    (sodar_url sodar_api_token landing_zone_uuid : string) (w : world) :
  api._landingzones_move sodar_url sodar_api_token landing_zone_uuid w
  = (Ok tt, w).
Proof. reflexivity. Qed.

(** C9. [get_raw] raises [ParameterException] exactly when the method's
    [project_uuid] and the client's default are both absent ([None] or
    empty), and then sends nothing; an argument that is given is the
    project of the request, whatever the client's default is. *)
Theorem get_raw_parameter_exception
    (owner : api.Client) (project_uuid : option string) (w : world) :
  ((∃ msg, fst (api.get_raw owner project_uuid w)
           = Raise (ParameterException msg))
   ↔ Py.absent project_uuid ∧ Py.absent owner.(api.project_uuid))
  ∧ (Py.absent project_uuid → Py.absent owner.(api.project_uuid) →
     snd (api.get_raw owner project_uuid w) = w)
  ∧ (∀ given, project_uuid = Some given → ¬ Py.absent project_uuid →
     api.get_raw owner project_uuid w
     = api._samplesheets_get owner.(api.sodar_url)
         owner.(api.sodar_api_token) given w
     ∧ trace (snd (api.get_raw owner project_uuid w))
       = trace w ++
         [Log DEBUG "HTTP GET request to %s"
            [ArgStr (api.strip_slashes owner.(api.sodar_url)
                     +:+ "/samplesheets/api/export/json/" +:+ given)];
          Sent {| method := GET;
                  url := api.strip_slashes owner.(api.sodar_url)
                         +:+ "/samplesheets/api/export/json/" +:+ given;
                  headers := api.authorization owner.(api.sodar_api_token);
                  data := [] |}]).
Proof.
  rewrite <- !truthy_false. unfold api.get_raw.
  destruct (Py.truthy project_uuid) eqn:Ea;
    destruct (Py.truthy owner.(api.project_uuid)) eqn:Eb; simpl.
  all: split; [split; [intros [msg Hmsg]|intros [? ?]]|split].
  all: try done.
  all: try (by apply samplesheets_get_not_parameter in Hmsg).
  all: try (by eexists).
  all: intros given -> Hne; try (by apply truthy_false in Ea).
  all: unfold Py.or_; rewrite Ea; simpl.
  all: by rewrite samplesheets_get_world.
Qed.

End entry_points.

(** ** Creating a landing zone without naming the assay *)

Section landing_zones.
Context `{Service} `{IsaTab}.

(** C3. When [_landingzones_create] is called without an assay and the
    investigation of the project is returned: if the number of studies is
    not 1 the call raises [Exception] for the studies, after logging the
    number found and the hint, and the only request sent is the GET of the
    investigation; if there is one study whose number of assays is not 1
    it raises [Exception] for the assays in the same way; and if the one
    study has one assay, the POST to the create URL is sent with that
    assay's key as the form field [assay]. *)
Theorem landingzones_create_resolution
    (sodar_url token project_uuid : string) (assay_uuid : option string)
    (investigation : models.Investigation) (w w1 : world) :
  Py.absent assay_uuid →
  api._investigations_get sodar_url token project_uuid w
  = (Ok investigation, w1) →
  let r :=
    api._landingzones_create sodar_url token project_uuid assay_uuid w in
  let n_studies := length (models.studies investigation) in
  let investigation_request :=
    {| method := GET;
       url := api.strip_slashes sodar_url
              +:+ "/samplesheets/api/investigation/retrieve/"
              +:+ project_uuid;
       headers := api.authorization token;
       data := [] |} in
  (n_studies ≠ 1 →
   fst r = Raise (Exception "Invalid number of studies in investigation!")
   ∧ trace (snd r)
     = trace w1 ++
       [Log ERROR "Expected one study, found %d" [ArgInt (Z.of_nat n_studies)];
        Log INFO "Try specifying an explicit --assay parameter" []]
   ∧ sent (trace (snd r)) = sent (trace w) ++ [investigation_request])
  ∧ (∀ path study, models.studies investigation = [(path, study)] →
     let n_assays := length (models.assays study) in
     (n_assays ≠ 1 →
      fst r = Raise (Exception "Invalid number of assays in investigation!")
      ∧ trace (snd r)
        = trace w1 ++
          [Log ERROR "Expected one assay, found %d"
             [ArgInt (Z.of_nat n_assays)];
           Log INFO "Try specifying an explicit --assay parameter" []]
      ∧ sent (trace (snd r)) = sent (trace w) ++ [investigation_request])
     ∧ (∀ assay a, models.assays study = [(assay, a)] →
        sent (trace (snd r))
        = sent (trace w) ++
          [investigation_request;
           {| method := POST;
              url := api.strip_slashes sodar_url
                     +:+ "/landingzones/api/create/" +:+ project_uuid;
              headers := api.authorization token;
              data := [("assay", assay)] |}])).
Proof.
  intros Habsent Hget r n_studies investigation_request.
  apply truthy_false in Habsent.
  assert (trace w1 = trace w ++
            [Log DEBUG "HTTP GET request to %s"
               [ArgStr (url investigation_request)];
             Sent investigation_request]) as Hw1.
  { pose proof (investigations_get_world sodar_url token project_uuid w) as E.
    rewrite Hget in E. simpl in E. by rewrite E. }
  assert (sent (trace w1) = sent (trace w) ++ [investigation_request]) as Hs1.
  { rewrite Hw1, sent_app. done. }
  subst r. unfold api._landingzones_create.
  rewrite Habsent. simpl negb. cbv iota.
  split.
  - intros Hn.
    erewrite bind_raise.
    2:{ erewrite bind_ok by (rewrite investigations_get_strip; exact Hget).
        fold n_studies. rewrite bool_decide_eq_true_2 by done.
        reflexivity. }
    rewrite add_events_app. simpl. split; [done|]. split; [done|].
    rewrite sent_app, Hs1. simpl. by rewrite app_nil_r.
  - intros path study Hstudies. split.
    + intros Hn.
      erewrite bind_raise.
      2:{ erewrite bind_ok by (rewrite investigations_get_strip; exact Hget).
          rewrite Hstudies. simpl length.
          rewrite bool_decide_eq_false_2 by (intros Hne; by apply Hne).
          simpl Py.values. erewrite bind_ok by reflexivity.
          rewrite bool_decide_eq_true_2 by done.
          reflexivity. }
      rewrite add_events_app. simpl. split; [done|]. split; [done|].
      rewrite sent_app, Hs1. simpl. by rewrite app_nil_r.
    + intros assay a Hassays.
      erewrite bind_ok.
      2:{ erewrite bind_ok by (rewrite investigations_get_strip; exact Hget).
          rewrite Hstudies. simpl length.
          rewrite bool_decide_eq_false_2 by (intros Hne; by apply Hne).
          simpl Py.values. erewrite bind_ok by reflexivity.
          rewrite Hassays. simpl length.
          rewrite bool_decide_eq_false_2 by (intros Hne; by apply Hne).
          reflexivity. }
      unfold api.requests_post.
      rewrite logged_request_world by (intros; apply decode_world).
      simpl. rewrite sent_app, Hs1, <- app_assoc. done.
Qed.

End landing_zones.

(** ** Assembling a sample sheet *)

Section sheets.
Context `{Service} `{IsaTab}.

Lemma keys_setitem_fresh {V} (d : Py.dict V) (k : string) (v : V) :
  k ∉ Py.keys d → Py.setitem d k v = d ++ [(k, v)].
Proof.
  induction d as [|[k' v'] d IH]; [done|].
  unfold Py.keys. simpl. intros Hk.
  apply not_elem_of_cons in Hk as [Hne Hk].
  destruct (String.eqb_spec k' k) as [->|_]; [done|].
  by rewrite IH.
Qed.

Lemma comprehension_cons {V R} (f : string → V → M R) (k : string) (d : V)
    (items : Py.dict V) (acc : Py.dict R) :
  dict_comprehension f ((k, d) :: items) acc
  = (x ← f k d; dict_comprehension f items (Py.setitem acc k x)).
Proof. reflexivity. Qed.

Lemma read_accepted {A} (rd : reader) (filename : string) (x : A) (w : world) :
  api.read rd filename (inr x) w = (Ok x, add_events w [Read rd filename]).
Proof. reflexivity. Qed.

Lemma read_refused {A} (rd : reader) (filename msg : string) (w : world) :
  api.read (A:=A) rd filename (inl msg) w
  = (Raise (IsaTabError msg), add_events w [Read rd filename]).
Proof. reflexivity. Qed.

(** A comprehension over reader calls: the events it leaves are calls of
    that reader, one for each entry up to the first that is refused. *)
Lemma comprehension_events {V R} (rd : reader) (g : string → V → string + R)
    (items : Py.dict V) (acc : Py.dict R) (w : world) :
  ∃ n, snd (dict_comprehension (λ k d, api.read rd k (g k d)) items acc w)
       = add_events w (Read rd <$> take n (Py.keys items)).
Proof.
  revert acc w. induction items as [|[k d] items IH]; intros acc w.
  - exists 0. simpl. by rewrite add_events_nil.
  - rewrite comprehension_cons. destruct (g k d) as [msg|x].
    + erewrite bind_raise by apply read_refused. by exists 1.
    + erewrite bind_ok by apply read_accepted.
      destruct (IH (Py.setitem acc k x) (add_events w [Read rd k])) as [n Hn].
      exists (S n). by rewrite Hn, add_events_app.
Qed.

(** It fails only with the reader's own exception. *)
Lemma comprehension_raises {V R} (rd : reader) (g : string → V → string + R)
    (items : Py.dict V) (acc : Py.dict R) (w : world) (e : exn) :
  fst (dict_comprehension (λ k d, api.read rd k (g k d)) items acc w)
  = Raise e →
  ∃ msg, e = IsaTabError msg.
Proof.
  revert acc w. induction items as [|[k d] items IH]; intros acc w; [done|].
  rewrite comprehension_cons. destruct (g k d) as [msg|x].
  - erewrite bind_raise by apply read_refused. intros [= <-]. by exists msg.
  - erewrite bind_ok by apply read_accepted. apply IH.
Qed.

Lemma keys_snoc {R} (acc : Py.dict R) (k : string) (x : R) (ks : list string) :
  Py.keys (acc ++ [(k, x)]) ++ ks = Py.keys acc ++ k :: ks.
Proof. unfold Py.keys. by rewrite fmap_app, <- app_assoc. Qed.

(** When it returns, the result has the keys of the mapping after those
    it was built onto. *)
Lemma comprehension_keys {V R} (rd : reader) (g : string → V → string + R)
    (items : Py.dict V) (acc res : Py.dict R) (w : world) :
  NoDup (Py.keys acc ++ Py.keys items) →
  fst (dict_comprehension (λ k d, api.read rd k (g k d)) items acc w)
  = Ok res →
  Py.keys res = Py.keys acc ++ Py.keys items.
Proof.
  revert acc w. induction items as [|[k d] items IH]; intros acc w Hnd.
  - simpl. intros [= <-]. by rewrite app_nil_r.
  - rewrite comprehension_cons. destruct (g k d) as [msg|x].
    { by erewrite bind_raise by apply read_refused. }
    erewrite bind_ok by apply read_accepted.
    assert (k ∉ Py.keys acc) as Hk.
    { apply NoDup_app in Hnd as (_ & Hnd & _).
      intros Hin. apply (Hnd k Hin). left. }
    rewrite (keys_setitem_fresh acc k x Hk).
    intros Hres. apply IH in Hres.
    + by rewrite Hres, keys_snoc.
    + by rewrite keys_snoc.
Qed.

(** When the reader accepts every entry it returns, after one call for
    each entry. *)
Lemma comprehension_accepted {V R} (rd : reader)
    (g : string → V → string + R) (items : Py.dict V) (acc : Py.dict R)
    (w : world) :
  accepts g items →
  ∃ res,
    dict_comprehension (λ k d, api.read rd k (g k d)) items acc w
    = (Ok res, add_events w (Read rd <$> Py.keys items)).
Proof.
  revert acc w. induction items as [|[k d] items IH]; intros acc w Hacc.
  - exists acc. simpl. by rewrite add_events_nil.
  - destruct (Hacc k d) as [x Hx]; [left|].
    destruct (IH (Py.setitem acc k x) (add_events w [Read rd k])) as [res Hres].
    { intros k' d' Hin. apply Hacc. by right. }
    exists res. rewrite comprehension_cons, Hx.
    erewrite bind_ok by apply read_accepted.
    by rewrite Hres, add_events_app.
Qed.

Lemma length_keys {V} (d : Py.dict V) : length (Py.keys d) = length d.
Proof. unfold Py.keys. apply length_fmap. Qed.

Lemma not_assay_reads (rd : reader) (fs : list string) :
  rd ≠ AssayReader → Forall (λ e, ¬ is_assay_read e) (Read rd <$> fs).
Proof.
  intros Hrd. apply Forall_fmap, Forall_forall. intros f _. simpl.
  destruct rd; [intros []|intros []|by destruct Hrd].
Qed.

(** It fails at the first entry the reader refuses, with what that
    reader raised, after one call for each entry up to that one. *)
Lemma comprehension_first_refused {V R} (rd : reader)
    (g : string → V → string + R) (before after : Py.dict V) (k : string)
    (d : V) (msg : string) (acc : Py.dict R) (w : world) :
  accepts g before →
  g k d = inl msg →
  dict_comprehension (λ k d, api.read rd k (g k d))
    (before ++ (k, d) :: after) acc w
  = (Raise (IsaTabError msg),
     add_events w (Read rd <$> (Py.keys before ++ [k]))).
Proof.
  intros Hacc Hk. revert acc w.
  induction before as [|[k' d'] before IH]; intros acc w.
  - simpl app. rewrite comprehension_cons, Hk.
    by erewrite bind_raise by apply read_refused.
  - destruct (Hacc k' d') as [x Hx]; [left|].
    change (((k', d') :: before) ++ (k, d) :: after)
      with ((k', d') :: (before ++ (k, d) :: after)).
    rewrite comprehension_cons, Hx.
    erewrite bind_ok by apply read_accepted.
    rewrite IH by (intros k'' d'' Hin; apply Hacc; by right).
    by rewrite add_events_app.
Qed.

(** C4, amended. For a payload whose studies mapping has more than one
    entry, [get] never returns and never calls the assay reader. When the
    readers accept the investigation and every study it raises
    [UnsupportedIsaTabFeatureException], after one call of the
    investigation reader and one of the study reader for each study.
    Otherwise the failure of the reader comes out as it is: that of the
    investigation reader, after its one call, or else that of the study
    reader on the first study it refuses, after its calls up to that
    study. *)
Theorem get_rejects_several_studies
    (owner : api.Client) (project_uuid : option string) (raw_data : json)
    (w w1 : world) :
  api.get_raw owner project_uuid w = (Ok raw_data, w1) →
  Py.wf (raw_studies (sheet raw_data)) →
  1 < length (raw_studies (sheet raw_data)) →
  let r := api.get owner project_uuid w in
  let entry := raw_investigation (sheet raw_data) in
  (∃ e evs,
     fst r = Raise e
     ∧ trace (snd r) = trace w1 ++ evs
     ∧ Forall (λ e, ¬ is_assay_read e) evs)
  ∧ ((∃ i, read_investigation (tsv entry) (path entry) = inr i) →
     accepts (λ path details, read_study path (tsv details) path)
       (raw_studies (sheet raw_data)) →
     r = (Raise (UnsupportedIsaTabFeatureException
                   "More than one study found!"),
          add_events w1
            (Read InvestigationReader (path entry)
             :: (Read StudyReader <$> Py.keys (raw_studies (sheet raw_data))))))
  ∧ (∀ msg,
       read_investigation (tsv entry) (path entry) = inl msg →
       r = (Raise (IsaTabError msg),
            add_events w1 [Read InvestigationReader (path entry)]))
  ∧ (∀ before k d after msg,
       (∃ i, read_investigation (tsv entry) (path entry) = inr i) →
       raw_studies (sheet raw_data) = before ++ (k, d) :: after →
       accepts (λ path details, read_study path (tsv details) path) before →
       read_study k (tsv d) k = inl msg →
       r = (Raise (IsaTabError msg),
            add_events w1
              (Read InvestigationReader (path entry)
               :: (Read StudyReader <$> Py.keys before ++ [k])))).
Proof.
  intros Hraw Hwf Hlen r entry. subst r. unfold api.get.
  erewrite bind_ok by exact Hraw. fold entry.
  destruct (read_investigation (tsv entry) (path entry)) as [msg|i] eqn:Ei.
  - erewrite bind_raise by apply read_refused. split; [|split; [|split]].
    + exists (IsaTabError msg), [Read InvestigationReader (path entry)].
      split; [done|]. split; [done|].
      by apply (not_assay_reads InvestigationReader [path entry]).
    + by intros [i' ?].
    + by intros msg' [= <-].
    + by intros before k d after msg' [i' ?].
  - erewrite bind_ok by apply read_accepted.
    set (w2 := add_events w1 [Read InvestigationReader (path entry)]).
    set (g := λ (path : string) (details : sheet_entry),
                read_study path (tsv details) path).
    set (items := raw_studies (sheet raw_data)) in *.
    split; [|split; [|split; [done|]]].
    3:{ intros before k d after msg _ Hsplit Hacc Hk. rewrite Hsplit.
        erewrite bind_raise
          by (apply (comprehension_first_refused StudyReader g); done).
        subst w2. by rewrite add_events_app. }
    + destruct (comprehension_events StudyReader g items [] w2) as [n Hn].
      destruct (dict_comprehension (λ k d, api.read StudyReader k (g k d))
                  items [] w2) as [[res|e] w3] eqn:E; simpl in Hn; subst w3.
      * erewrite bind_ok by exact E.
        assert (Py.keys res = Py.keys items) as Hkeys.
        { apply (comprehension_keys StudyReader g items [] res w2); [done|].
          by rewrite E. }
        rewrite bool_decide_eq_true_2
          by (rewrite <- (length_keys res), Hkeys, length_keys; done).
        eexists _, (_ :: _). split; [done|]. split.
        { subst w2. rewrite add_events_app. reflexivity. }
        apply Forall_cons. split; [by intros []|].
        by apply not_assay_reads.
      * erewrite bind_raise by exact E.
        eexists _, (_ :: _). split; [done|]. split.
        { subst w2. rewrite add_events_app. reflexivity. }
        apply Forall_cons. split; [by intros []|].
        by apply not_assay_reads.
    + intros _ Hacc.
      destruct (comprehension_accepted StudyReader g items [] w2 Hacc)
        as [res Hres].
      erewrite bind_ok by exact Hres.
      assert (Py.keys res = Py.keys items) as Hkeys.
      { apply (comprehension_keys StudyReader g items [] res w2); [done|].
        by rewrite Hres. }
      rewrite bool_decide_eq_true_2
        by (rewrite <- (length_keys res), Hkeys, length_keys; done).
      subst w2. by rewrite add_events_app.
Qed.

(** C10. For a payload whose studies mapping is empty, [get] does not
    raise [UnsupportedIsaTabFeatureException]: once the investigation has
    been read, the guard lets the empty mapping through and taking its first
    study raises [IndexError], before any study or assay is read. *)
Theorem get_no_study
    (owner : api.Client) (project_uuid : option string) (raw_data : json)
    (w w1 : world) :
  api.get_raw owner project_uuid w = (Ok raw_data, w1) →
  raw_studies (sheet raw_data) = [] →
  let r := api.get owner project_uuid w in
  let entry := raw_investigation (sheet raw_data) in
  (∀ msg, fst r ≠ Raise (UnsupportedIsaTabFeatureException msg))
  ∧ ((∃ i, read_investigation (tsv entry) (path entry) = inr i) →
     r = (Raise (IndexError "list index out of range"),
          add_events w1 [Read InvestigationReader (path entry)])).
Proof.
  intros Hraw Hnone r entry. subst r. unfold api.get.
  erewrite bind_ok by exact Hraw. fold entry. rewrite Hnone.
  destruct (read_investigation (tsv entry) (path entry)) as [msg|i] eqn:Ei.
  - erewrite bind_raise by apply read_refused. split; [done|].
    by intros [i' ?].
  - erewrite bind_ok by apply read_accepted. split; [done|]. done.
Qed.

End sheets.

(** ** The safe file writer *)

Section writer.
Context `{Rendering} `{Files}.

(** A loop whose body shows one text per line leaves those texts, in
    order. *)
Lemma for_each_emit (body : string → M unit) (ev : string → event)
    (items : list string) (w : world) :
  (∀ line w', body line w' = emit (ev line) w') →
  common.for_each body items w = (Ok tt, add_events w (ev <$> items)).
Proof.
  intros Hbody. revert w. induction items as [|line items IH]; intros w.
  - simpl. by rewrite add_events_nil.
  - simpl. erewrite bind_ok by apply Hbody.
    by rewrite IH, add_events_app.
Qed.

Lemma get_terminal_columns_world (w : world) :
  ∃ cols, common.get_terminal_columns w = (Ok cols, w).
Proof.
  unfold common.get_terminal_columns.
  destruct (winsize w 0%Z) as [[? c]|], (winsize w 1%Z) as [[? c']|],
    (winsize w 2%Z) as [[? c'']|]; simpl; try case_bool_decide; eauto.
Qed.

(** Showing the diff leaves display events only, and the scratch file
    rewound is what it was: a call that shows the diff goes on like one that
    does not, from a world with those events added. *)
Lemma show_diff_phase (out_path : common.path_arg) (contents : string)
    (do_write side_by_side answer_yes : bool) (out_file : common.out_stream)
    (w : world) :
  ∃ evs,
    Forall is_display evs
    ∧ common.overwrite_helper out_path contents do_write true side_by_side
        answer_yes out_file w
      = common.overwrite_helper out_path contents do_write false side_by_side
          answer_yes out_file (add_events w evs).
Proof.
  unfold common.overwrite_helper.
  set (old :=
         if negb (common.is_dash out_path)
            && bool_decide (is_Some (fs w !! common.Path out_path))
         then Py.splitlines
                (Py.universal_newlines
                   (default "" (fs w !! common.Path out_path)))
         else []).
  assert (∀ (k : list string → M common.tempfile),
            (((if negb (common.is_dash out_path)
               then common.exists_ (common.Path out_path)
               else mret false)
              ≫= λ readable : bool,
                   (if readable
                    then common.read_text (common.Path out_path)
                         ≫= λ text : string, mret (Py.splitlines text)
                    else mret [])
                   ≫= k) w) = k old w) as Hold.
  { intros k. subst old.
    destruct (common.is_dash out_path); simpl negb; cbv iota;
      erewrite bind_ok by reflexivity; [reflexivity|].
    simpl andb.
    destruct (bool_decide (is_Some (fs w !! common.Path out_path)));
      reflexivity. }
  set (new := Py.splitlines (staged contents)).
  destruct side_by_side; simpl negb; cbv iota.
  - destruct (get_terminal_columns_world w) as [cols Hcols].
    set (ev := λ line : string,
           if common.has_buffer out_file
           then OutBufferWrite (Py.encode_utf8 (line +:+ String "010"%char ""))
           else OutWrite (line +:+ String "010"%char "")).
    exists ((ev <$> make_table cols old new (common.str out_path)
                      (common.str out_path)) ++ [OutFlush]).
    split.
    { apply Forall_app. split; [|by repeat constructor].
      apply Forall_fmap, Forall_forall. intros line _. subst ev. simpl.
      by destruct (common.has_buffer out_file). }
    erewrite bind_ok.
    2:{ rewrite Hold. unfold common.read. simpl fst. cbv iota beta.
        erewrite bind_ok.
        2:{ erewrite bind_ok by exact Hcols.
            unfold common.for_in, common.icdiff_make_table.
            erewrite bind_ok.
            2:{ apply (for_each_emit _ ev). intros line w'. subst ev.
                simpl. by destruct (common.has_buffer out_file). }
            reflexivity. }
        erewrite bind_ok by reflexivity. simpl. reflexivity. }
    rewrite add_events_app. reflexivity.
  - set (ev := λ line : string,
           if Py.startswith line "+++" || Py.startswith line "---" then
             OutWrite (colored line white)
           else if Py.startswith line "@@" then
             OutWrite (colored line cyan)
           else if Py.startswith line "+" then
             OutWrite (colored line green +:+ String "010"%char "")
           else if Py.startswith line "-" then
             OutWrite (colored line red +:+ String "010"%char "")
           else
             OutWrite (line +:+ String "010"%char "")).
    exists ((ev <$> unified_diff old new (common.str out_path)
                      (common.str out_path)) ++ [OutFlush]).
    split.
    { apply Forall_app. split; [|by repeat constructor].
      apply Forall_fmap, Forall_forall. intros line _. subst ev. simpl.
      by repeat case_match. }
    erewrite bind_ok.
    2:{ rewrite Hold. unfold common.read. simpl fst. cbv iota beta.
        erewrite bind_ok.
        2:{ unfold common.for_in, common.difflib_unified_diff.
            erewrite bind_ok.
            2:{ apply (for_each_emit _ ev). intros line w'. subst ev.
                simpl. by repeat case_match. }
            reflexivity. }
        erewrite bind_ok by reflexivity. simpl. reflexivity. }
    rewrite add_events_app. reflexivity.
Qed.

(** *** The write phase, case by case *)

Lemma write_phase_off (out_path : common.path_arg) (contents : string)
    (side_by_side answer_yes : bool) (out_file : common.out_stream)
    (w : world) :
  common.overwrite_helper out_path contents false false side_by_side
    answer_yes out_file w
  = (Ok tt, w).
Proof. reflexivity. Qed.

Lemma write_phase_stdout (out_path : common.path_arg) (contents : string)
    (side_by_side answer_yes : bool) (out_file : common.out_stream)
    (w : world) :
  common.is_dash out_path = true →
  common.overwrite_helper out_path contents true false side_by_side
    answer_yes out_file w
  = (Ok tt,
     add_events w
       (Log INFO "About to write file contents to %s"
          [ArgStr (common.str out_path)]
        :: if String.eqb (staged contents) "" then []
           else [StdoutWrite (staged contents)])).
Proof.
  intros Hdash. unfold common.overwrite_helper. rewrite Hdash.
  erewrite bind_ok by reflexivity. erewrite bind_ok by reflexivity.
  unfold common.copy_to_stdout. fold (staged contents).
  destruct (String.eqb (staged contents) "").
  - reflexivity.
  - unfold emit. by rewrite add_events_app.
Qed.

Lemma write_phase_answer_yes (out_path : common.path_arg) (contents : string)
    (side_by_side : bool) (out_file : common.out_stream) (w : world) :
  common.is_dash out_path = false →
  common.overwrite_helper out_path contents true false side_by_side
    true out_file w
  = (Ok tt,
     add_events w
       [Log INFO "About to write file contents to %s"
          [ArgStr (common.str out_path)];
        Log INFO "See above for the diff that will be applied." []]).
Proof.
  intros Hdash. unfold common.overwrite_helper. rewrite Hdash.
  erewrite bind_ok by reflexivity. erewrite bind_ok by reflexivity.
  erewrite bind_ok by reflexivity. erewrite bind_ok by reflexivity.
  by rewrite add_events_app.
Qed.

(** Without [answer_yes] the answer is read, and the destination receives
    the staged content exactly when the answer, in lower case, starts
    with y; any other answer changes no file and raises nothing. *)
Lemma write_phase_prompt (out_path : common.path_arg) (contents : string)
    (side_by_side : bool) (out_file : common.out_stream) (w : world)
    (answer : string) (rest : list string) :
  common.is_dash out_path = false →
  stdin w = answer :: rest →
  common.overwrite_helper out_path contents true false side_by_side
    false out_file w
  = (Ok tt,
     {| fs := if Py.startswith (Py.lower answer) "y"
              then <[common.Path out_path := staged contents]> (fs w)
              else fs w;
        winsize := winsize w;
        stdin := rest;
        trace := trace w ++
                 [Log INFO "About to write file contents to %s"
                    [ArgStr (common.str out_path)];
                  Log INFO "See above for the diff that will be applied." [];
                  Prompt "Is this OK? [yN] "] |}).
Proof.
  intros Hdash Hin. unfold common.overwrite_helper. rewrite Hdash.
  erewrite bind_ok by reflexivity. erewrite bind_ok by reflexivity.
  erewrite bind_ok by reflexivity.
  erewrite bind_ok.
  2:{ change (negb false) with true. cbv iota.
      erewrite bind_ok; [reflexivity|].
      unfold common.input. simpl stdin. rewrite Hin. reflexivity. }
  simpl. destruct (Py.startswith (Py.lower answer) "y").
  - unfold common.copy_to_path. simpl. fold (staged contents).
    by rewrite <- !app_assoc.
  - unfold mret, M_ret. by rewrite <- !app_assoc.
Qed.

(** Closes a goal [Forall (λ e, ¬ P e) [e1; ...; en]] over given events. *)
Ltac none_of_these :=
  repeat (apply Forall_cons; split; [simpl; first [tauto|congruence]|]);
  apply Forall_nil_2.

Lemma display_not_prompt (evs : list event) :
  Forall is_display evs → Forall (λ e, ¬ is_prompt e) evs.
Proof.
  intros Hd. eapply Forall_impl; [exact Hd|]. intros []; simpl; tauto.
Qed.

Lemma display_not_notice (evs : list event) :
  Forall is_display evs → Forall (λ e, ¬ is_unchanged_notice e) evs.
Proof.
  intros Hd. eapply Forall_impl; [exact Hd|]. intros []; simpl; tauto.
Qed.

Lemma display_no_stdout (evs evs' : list event) :
  Forall is_display evs → stdout_text (evs ++ evs') = stdout_text evs'.
Proof.
  induction 1 as [|e evs He _ IH]; [done|].
  simpl. by destruct e.
Qed.

Lemma universal_newlines_no_cr (s : string) :
  no_cr s = true → Py.universal_newlines s = s.
Proof.
  induction s as [|c s IH]; [done|].
  simpl. destruct (Ascii.eqb c "013"%char); [done|].
  simpl. intros Hs. by rewrite IH.
Qed.

(** The staged content is [contents] as a text-mode read returns it; it is
    [contents] itself when that has no carriage return. *)
Lemma staged_text (contents : string) :
  staged contents = Py.universal_newlines contents.
Proof. reflexivity. Qed.

(** C5. With [do_write] false the call returns and every file, the
    destination among them, is as before, whatever [show_diff] and
    [show_diff_side_by_side] are. *)
Theorem no_write_no_mutation (out_path : common.path_arg) (contents : string)
    (show_diff show_diff_side_by_side answer_yes : bool)
    (out_file : common.out_stream) (w : world) :
  fst (common.overwrite_helper out_path contents false show_diff
         show_diff_side_by_side answer_yes out_file w) = Ok tt
  ∧ fs (snd (common.overwrite_helper out_path contents false show_diff
               show_diff_side_by_side answer_yes out_file w)) = fs w.
Proof.
  destruct show_diff; [|done].
  destruct (show_diff_phase out_path contents false show_diff_side_by_side
              answer_yes out_file w) as (evs & _ & ->).
  by rewrite write_phase_off.
Qed.

Lemma universal_newlines_cons (c : ascii) (rest : string) :
  Py.universal_newlines (String c rest)
  = if Ascii.eqb c "013"%char then
      String "010"%char
        match rest with
        | String c' rest' =>
            if Ascii.eqb c' "010"%char then Py.universal_newlines rest'
            else Py.universal_newlines rest
        | EmptyString => Py.universal_newlines rest
        end
    else String c (Py.universal_newlines rest).
Proof. reflexivity. Qed.

Lemma no_cr_cons (c : ascii) (s : string) :
  no_cr (String c s) = negb (Ascii.eqb c "013"%char) && no_cr s.
Proof. reflexivity. Qed.

Lemma universal_newlines_clean (n : nat) (s : string) :
  String.length s ≤ n → no_cr (Py.universal_newlines s) = true.
Proof.
  revert s. induction n as [|n IH]; intros s Hlen.
  { destruct s; [done|simpl in Hlen; lia]. }
  destruct s as [|c rest]; [done|].
  change (S (String.length rest) ≤ S n) in Hlen.
  rewrite universal_newlines_cons.
  destruct (Ascii.eqb c "013"%char) eqn:Hc; rewrite no_cr_cons.
  - change (no_cr match rest with
                  | String c' rest' =>
                      if Ascii.eqb c' "010"%char
                      then Py.universal_newlines rest'
                      else Py.universal_newlines rest
                  | EmptyString => Py.universal_newlines rest
                  end = true).
    destruct rest as [|c' rest']; [done|].
    change (S (S (String.length rest')) ≤ S n) in Hlen.
    destruct (Ascii.eqb c' "010"%char); apply IH.
    + lia.
    + change (S (String.length rest') ≤ n). lia.
  - rewrite Hc. apply IH. lia.
Qed.

(** C6, amended. With [do_write] and the destination ["-"], the call
    returns after copying the content to standard output as a text-mode
    read gives it back: with every CR LF and every other CR as LF, so
    unchanged exactly when the content has no carriage return. No
    confirmation is asked for and no answer is read, with or without
    [answer_yes], and no file changes. *)
Theorem stdout_never_prompts (contents : string)
    (show_diff show_diff_side_by_side answer_yes : bool)
    (out_file : common.out_stream) (w : world) :
  ∃ evs,
    common.overwrite_helper (common.PathStr "-") contents true show_diff
      show_diff_side_by_side answer_yes out_file w
    = (Ok tt, add_events w evs)
    ∧ stdout_text evs = Py.universal_newlines contents
    ∧ (stdout_text evs = contents ↔ no_cr contents = true)
    ∧ Forall (λ e, ¬ is_prompt e) evs
    ∧ stdin (add_events w evs) = stdin w
    ∧ fs (add_events w evs) = fs w.
Proof.
  assert (∀ w',
            common.overwrite_helper (common.PathStr "-") contents true false
              show_diff_side_by_side answer_yes out_file w'
            = (Ok tt,
               add_events w'
                 (Log INFO "About to write file contents to %s" [ArgStr "-"]
                  :: if String.eqb (staged contents) "" then []
                     else [StdoutWrite (staged contents)]))) as Hwrite.
  { intros w'. by apply write_phase_stdout. }
  assert (stdout_text
            (Log INFO "About to write file contents to %s" [ArgStr "-"]
             :: if String.eqb (staged contents) "" then []
                else [StdoutWrite (staged contents)])
          = Py.universal_newlines contents) as Hout.
  { change (Py.universal_newlines contents) with (staged contents). simpl.
    destruct (String.eqb_spec (staged contents) "") as [->|_]; simpl.
    - done.
    - apply app_empty_r. }
  assert (Forall (λ e, ¬ is_prompt e)
            (Log INFO "About to write file contents to %s" [ArgStr "-"]
             :: if String.eqb (staged contents) "" then []
                else [StdoutWrite (staged contents)])) as Hprompt.
  { destruct (String.eqb (staged contents) ""); none_of_these. }
  assert (Py.universal_newlines contents = contents ↔ no_cr contents = true)
    as Hcr.
  { split.
    - intros <-. by apply (universal_newlines_clean (String.length contents)).
    - apply universal_newlines_no_cr. }
  destruct show_diff.
  - destruct (show_diff_phase (common.PathStr "-") contents true
                show_diff_side_by_side answer_yes out_file w)
      as (evs & Hevs & ->).
    eexists. rewrite Hwrite, add_events_app. split; [reflexivity|].
    assert (stdout_text
              (evs ++
               Log INFO "About to write file contents to %s" [ArgStr "-"]
               :: (if String.eqb (staged contents) "" then []
                   else [StdoutWrite (staged contents)]))
            = Py.universal_newlines contents) as Hall
      by (by rewrite display_no_stdout).
    split; [exact Hall|]. split; [by rewrite Hall|].
    split; [apply Forall_app; split; [by apply display_not_prompt|done]|].
    done.
  - eexists. rewrite Hwrite. split; [reflexivity|].
    split; [exact Hout|]. split; [by rewrite Hout|]. done.
Qed.

(** C1, what the code does. With [do_write] and [answer_yes], for a
    destination that is not ["-"], the call returns without asking and
    without writing: no file changes, no answer is read and no confirmation
    is asked for. *)
Theorem answer_yes_never_writes (out_path : common.path_arg)
    (contents : string) (show_diff show_diff_side_by_side : bool)
    (out_file : common.out_stream) (w : world) :
  common.is_dash out_path = false →
  ∃ evs,
    common.overwrite_helper out_path contents true show_diff
      show_diff_side_by_side true out_file w
    = (Ok tt, add_events w evs)
    ∧ Forall (λ e, ¬ is_prompt e) evs
    ∧ fs (add_events w evs) = fs w
    ∧ stdin (add_events w evs) = stdin w.
Proof.
  intros Hdash. destruct show_diff.
  - destruct (show_diff_phase out_path contents true show_diff_side_by_side
                true out_file w) as (evs & Hevs & ->).
    eexists. rewrite write_phase_answer_yes, add_events_app by done.
    split; [reflexivity|]. split; [|done].
    apply Forall_app. split; [by apply display_not_prompt|].
    none_of_these.
  - eexists. rewrite write_phase_answer_yes by done.
    split; [reflexivity|]. split; [|done].
    none_of_these.
Qed.

(** Without [answer_yes], the destination is overwritten with the staged
    content exactly when the answer, in lower case, starts with y; any
    other answer leaves every file as it was, and the call returns. *)
Lemma prompted_write (out_path : common.path_arg) (contents : string)
    (show_diff show_diff_side_by_side : bool) (out_file : common.out_stream)
    (w : world) (answer : string) (rest : list string) :
  common.is_dash out_path = false →
  stdin w = answer :: rest →
  let r :=
    common.overwrite_helper out_path contents true show_diff
      show_diff_side_by_side false out_file w in
  fst r = Ok tt
  ∧ stdin (snd r) = rest
  ∧ fs (snd r)
    = if Py.startswith (Py.lower answer) "y"
      then <[common.Path out_path := staged contents]> (fs w)
      else fs w.
Proof.
  intros Hdash Hin r. subst r. destruct show_diff.
  - destruct (show_diff_phase out_path contents true show_diff_side_by_side
                false out_file w) as (evs & Hevs & ->).
    by erewrite write_phase_prompt by done.
  - by erewrite write_phase_prompt by done.
Qed.

(** C2, what the code does. Whatever the destination holds and whatever is
    staged, equal or not, in unified and in side-by-side mode, with or
    without writing, a call that shows the diff never logs the unchanged
    notice: [lines] is a generator, which is true even when it has
    nothing to yield. *)
Theorem unchanged_notice_never_logged (out_path : common.path_arg)
    (contents : string) (do_write show_diff_side_by_side answer_yes : bool)
    (out_file : common.out_stream) (w : world) :
  ∃ evs,
    trace (snd (common.overwrite_helper out_path contents do_write true
                  show_diff_side_by_side answer_yes out_file w))
    = trace w ++ evs
    ∧ Forall (λ e, ¬ is_unchanged_notice e) evs.
Proof.
  destruct (show_diff_phase out_path contents do_write show_diff_side_by_side
              answer_yes out_file w) as (evs & Hevs & ->).
  apply display_not_notice in Hevs.
  destruct do_write.
  2:{ exists evs. by rewrite write_phase_off. }
  destruct (common.is_dash out_path) eqn:Hdash.
  { rewrite write_phase_stdout by done. eexists.
    rewrite add_events_app. split; [reflexivity|].
    apply Forall_app. split; [done|].
    destruct (String.eqb (staged contents) "");
      none_of_these. }
  destruct answer_yes.
  { rewrite write_phase_answer_yes by done. eexists.
    rewrite add_events_app. split; [reflexivity|].
    apply Forall_app. split; [done|]. none_of_these. }
  destruct (stdin w) as [|answer rest] eqn:Hin.
  - unfold common.overwrite_helper. rewrite Hdash.
    erewrite bind_ok by reflexivity. erewrite bind_ok by reflexivity.
    erewrite bind_ok by reflexivity.
    erewrite bind_raise.
    2:{ change (negb false) with true. cbv iota.
        erewrite bind_raise; [reflexivity|].
        unfold common.input. simpl stdin. rewrite Hin. reflexivity. }
    eexists. simpl. rewrite <- !app_assoc. split; [reflexivity|].
    apply Forall_app. split; [done|]. none_of_these.
  - erewrite write_phase_prompt by done. simpl. eexists.
    rewrite <- app_assoc. split; [reflexivity|].
    apply Forall_app. split; [done|]. none_of_these.
Qed.

End writer.

(** ** The statements on concrete runs *)

(** C3 on a project with one study and one assay: the GET of the
    investigation is followed by the POST with the assay's key. *)
Lemma landingzones_create_resolution_witness :
  sent (trace (snd (api._landingzones_create
                      (H:=demo.service
                            (demo.JInvestigation demo.one_study_one_assay))
                      "https://sodar/" "secret" "p1" None demo.world0)))
  = [{| method := GET;
        url := "https://sodar/samplesheets/api/investigation/retrieve/p1";
        headers := [("Authorization", "Token secret")];
        data := [] |};
     {| method := POST;
        url := "https://sodar/landingzones/api/create/p1";
        headers := [("Authorization", "Token secret")];
        data := [("assay", "A1")] |}].
Proof.
  pose proof (landingzones_create_resolution
                (H:=demo.service
                      (demo.JInvestigation demo.one_study_one_assay))
                "https://sodar/" "secret" "p1" None
                demo.one_study_one_assay demo.world0 _
                (or_introl eq_refl) eq_refl) as Hres.
  destruct Hres as [_ Hone].
  exact (proj2 (Hone "s1.txt" _ eq_refl) "A1" _ eq_refl).
Defined.

(** C4 as stated fails: a payload with two studies, the first of which the
    study reader refuses. The call raises the reader's exception, not
    [UnsupportedIsaTabFeatureException]. *)
Lemma get_several_studies_reader_refuses :
  let raw_data := demo.two_studies_one_unreadable in
  let get_raw :=
    api.get_raw (H:=demo.service (demo.JSheet raw_data))
      demo.client None demo.world0 in
  let r :=
    api.get (H:=demo.service (demo.JSheet raw_data)) (H0:=demo.isatab)
      demo.client None demo.world0 in
  fst get_raw = Ok (demo.JSheet raw_data)
  ∧ Py.wf (raw_studies raw_data)
  ∧ length (raw_studies raw_data) = 2
  ∧ fst r = Raise (IsaTabError "empty file")
  ∧ (∀ msg, fst r ≠ Raise (UnsupportedIsaTabFeatureException msg)).
Proof.
  split; [reflexivity|]. split; [by compute_done|]. split; [reflexivity|].
  split; [reflexivity|]. intros msg. vm_compute. discriminate.
Qed.

(** C4, amended, on a payload with two studies that the readers accept. *)
Lemma get_rejects_several_studies_witness :
  fst (api.get (H:=demo.service (demo.JSheet demo.two_studies))
         (H0:=demo.isatab) demo.client None demo.world0)
  = Raise (UnsupportedIsaTabFeatureException "More than one study found!")
  ∧ reads (trace (snd (api.get
                         (H:=demo.service (demo.JSheet demo.two_studies))
                         (H0:=demo.isatab) demo.client None demo.world0)))
    = [(InvestigationReader, "i.txt"); (StudyReader, "s1.txt");
       (StudyReader, "s2.txt")].
Proof.
  pose proof (get_rejects_several_studies
                (H:=demo.service (demo.JSheet demo.two_studies))
                (H0:=demo.isatab) demo.client None
                (demo.JSheet demo.two_studies) demo.world0 _ eq_refl)
    as Hget.
  destruct Hget as (_ & Hget & _).
  - by compute_done.
  - simpl. lia.
  - rewrite Hget.
    + split; reflexivity.
    + by exists "investigation".
    + intros k d Hin. simpl in Hin.
      apply elem_of_cons in Hin as [[= -> ->]|Hin]; [by eexists|].
      apply list_elem_of_singleton in Hin as [= -> ->]. by eexists.
Defined.

(** C10 on a payload without studies. *)
Lemma get_no_study_witness :
  api.get (H:=demo.service (demo.JSheet demo.no_study)) (H0:=demo.isatab)
    demo.client (Some "p2") demo.world0
  = (Raise (IndexError "list index out of range"),
     add_events demo.world0
       [Log DEBUG "HTTP GET request to %s"
          [ArgStr "https://sodar/samplesheets/api/export/json/p2"];
        Sent {| method := GET;
                url := "https://sodar/samplesheets/api/export/json/p2";
                headers := [("Authorization", "Token secret")];
                data := [] |};
        Read InvestigationReader "i.txt"]).
Proof.
  pose proof (get_no_study
                (H:=demo.service (demo.JSheet demo.no_study))
                (H0:=demo.isatab) demo.client (Some "p2")
                (demo.JSheet demo.no_study) demo.world0 _ eq_refl eq_refl)
    as [_ Hget].
  rewrite Hget; [reflexivity|]. by exists "investigation".
Defined.

(** C9 on a client with a default project: an argument that is given wins,
    and with neither an argument nor a default the call raises at once. *)
Lemma get_raw_parameter_exception_witness :
  sent (trace (snd (api.get_raw
                      (H:=demo.service (demo.JSheet demo.no_study))
                      demo.client (Some "p2") demo.world0)))
  = [{| method := GET;
        url := "https://sodar/samplesheets/api/export/json/p2";
        headers := [("Authorization", "Token secret")];
        data := [] |}]
  ∧ api.get_raw (H:=demo.service (demo.JSheet demo.no_study))
      {| api.sodar_url := "https://sodar/"; api.sodar_api_token := "secret";
         api.project_uuid := None |} (Some "") demo.world0
    = (Raise (ParameterException
                "Both Client and method's project_uuid argument missing."),
       demo.world0).
Proof.
  split.
  - pose proof (get_raw_parameter_exception
                  (H:=demo.service (demo.JSheet demo.no_study))
                  demo.client (Some "p2") demo.world0) as (_ & _ & Hgiven).
    destruct (Hgiven "p2" eq_refl) as [_ Htrace].
    + intros [?|?]; discriminate.
    + by rewrite Htrace.
  - reflexivity.
Defined.

(** C1 at the failing input: [answer_yes] is set, the destination is not
    ["-"], and the destination is not written. *)
Lemma answer_yes_never_writes_witness :
  ∃ evs,
    common.overwrite_helper (H:=demo.rendering) (H0:=demo.files) (common.PathStr "out.txt")
      "new" true true false true {| common.has_buffer := true |} demo.world0
    = (Ok tt, add_events demo.world0 evs)
    ∧ Forall (λ e, ¬ is_prompt e) evs
    ∧ fs (add_events demo.world0 evs) = fs demo.world0
    ∧ stdin (add_events demo.world0 evs) = stdin demo.world0.
Proof.
  exact (answer_yes_never_writes (H:=demo.rendering) (H0:=demo.files)
           (common.PathStr "out.txt") "new" true false
           {| common.has_buffer := true |} demo.world0 eq_refl).
Defined.

(** The same run, evaluated: the file store is still empty. *)
Example answer_yes_run :
  let r :=
    common.overwrite_helper (H:=demo.rendering) (H0:=demo.files) (common.PathStr "out.txt")
      "new" true false false true {| common.has_buffer := true |}
      demo.world0 in
  fst r = Ok tt
  ∧ fs (snd r) !! "out.txt" = None
  ∧ trace (snd r)
    = [Log INFO "About to write file contents to %s" [ArgStr "out.txt"];
       Log INFO "See above for the diff that will be applied." []].
Proof. repeat split; reflexivity. Qed.

(** C2 at the failing input: the destination holds exactly what is staged,
    the rendered diff is empty, and the only event is the flush. *)
Example unchanged_run :
  let text := "a" +:+ String "010"%char "" in
  let w := {| fs := {["sheet.tsv" := text]}; winsize := λ _, None;
              stdin := []; trace := [] |} in
  unified_diff (Rendering:=demo.rendering)
    (Py.splitlines text) (Py.splitlines (staged text)) "sheet.tsv" "sheet.tsv"
  = []
  ∧ common.overwrite_helper (H:=demo.rendering) (H0:=demo.files) (common.PathStr "sheet.tsv")
      text false true false false {| common.has_buffer := true |} w
    = (Ok tt, add_events w [OutFlush]).
Proof. split; reflexivity. Qed.

(** C6 as stated fails: the content [a], CR, LF, [b] is not copied to
    standard output as it is; it comes out as [a], LF, [b]. *)
Lemma stdout_not_verbatim :
  let contents := "a" +:+ String "013"%char (String "010"%char "b") in
  let r :=
    common.overwrite_helper (H:=demo.rendering) (H0:=demo.files)
      (common.PathStr "-") contents true false false false
      {| common.has_buffer := true |} demo.world0 in
  fst r = Ok tt
  ∧ stdout_text (trace (snd r)) = "a" +:+ String "010"%char "b"
  ∧ stdout_text (trace (snd r)) ≠ contents.
Proof.
  split; [reflexivity|]. split; [reflexivity|]. vm_compute. discriminate.
Qed.

(** * Further properties of the client *)

Section client_more.
Context `{Service} `{IsaTab}.

(** With an assay given, [_landingzones_create] does not fetch the
    investigation: it logs the URL and sends the one POST, with that assay
    as the form field. *)
Theorem landingzones_create_explicit
    (sodar_url token project_uuid assay_uuid : string) (w : world) :
  assay_uuid ≠ "" →
  snd (api._landingzones_create sodar_url token project_uuid
         (Some assay_uuid) w)
  = add_events w
      [Log DEBUG "HTTP POST request to %s"
         [ArgStr (api.strip_slashes sodar_url
                  +:+ "/landingzones/api/create/" +:+ project_uuid)];
       Sent {| method := POST;
               url := api.strip_slashes sodar_url
                      +:+ "/landingzones/api/create/" +:+ project_uuid;
               headers := api.authorization token;
               data := [("assay", assay_uuid)] |}].
Proof.
  intros Hne. unfold api._landingzones_create.
  assert (Py.truthy (Some assay_uuid) = true) as ->.
  { simpl. by destruct (String.eqb_spec assay_uuid ""). }
  change (negb true) with false. cbv iota.
  erewrite bind_ok by reflexivity. unfold api.requests_post.
  apply logged_request_world. intros; apply decode_world.
Qed.

Lemma sent_add_events (w : world) (evs : list event) :
  sent (trace (add_events w evs)) = sent (trace w) ++ sent evs.
Proof. apply sent_app. Qed.

(** Every request of [_landingzones_create] carries the token in its
    [Authorization] header and goes to a path under the stripped base URL;
    the call sends at most two requests, and exactly one when the assay is
    given. *)
Theorem landingzones_create_requests
    (sodar_url token project_uuid : string) (assay_uuid : option string)
    (w : world) :
  ∃ reqs,
    sent (trace (snd (api._landingzones_create sodar_url token project_uuid
                        assay_uuid w)))
    = sent (trace w) ++ reqs
    ∧ Forall (λ q, headers q = [("Authorization", "Token " +:+ token)]
                   ∧ ∃ rest, url q = api.strip_slashes sodar_url +:+ rest)
        reqs
    ∧ 1 ≤ length reqs ≤ 2
    ∧ (Py.truthy assay_uuid = true → length reqs = 1).
Proof.
  set (good := λ q : request,
         headers q = [("Authorization", "Token " +:+ token)]
         ∧ ∃ rest, url q = api.strip_slashes sodar_url +:+ rest).
  set (get_req :=
         {| method := GET;
            url := api.strip_slashes sodar_url
                   +:+ "/samplesheets/api/investigation/retrieve/"
                   +:+ project_uuid;
            headers := api.authorization token; data := [] |}).
  assert (good get_req) as Hget_req by (split; [done|by eexists]).
  enough (∃ evs,
            snd (api._landingzones_create sodar_url token project_uuid
                   assay_uuid w) = add_events w evs
            ∧ Forall good (sent evs)
            ∧ 1 ≤ length (sent evs) ≤ 2
            ∧ (Py.truthy assay_uuid = true → length (sent evs) = 1))
    as (evs & -> & ?).
  { exists (sent evs). by rewrite sent_add_events. }
  destruct (Py.truthy assay_uuid) eqn:Ha.
  - unfold api._landingzones_create. rewrite Ha.
    change (negb true) with false. cbv iota.
    erewrite bind_ok by reflexivity. unfold api.requests_post.
    rewrite logged_request_world by (intros; apply decode_world).
    eexists. split; [reflexivity|]. simpl.
    split; [|split; [lia|done]].
    apply Forall_cons. split; [|by apply Forall_nil_2].
    split; [done|by eexists].
  - unfold api._landingzones_create. rewrite Ha.
    change (negb false) with true. cbv iota.
    pose proof (investigations_get_world sodar_url token project_uuid w)
      as Hw1.
    rewrite <- investigations_get_strip in Hw1.
    fold get_req in Hw1. change (api.strip_slashes sodar_url
                   +:+ "/samplesheets/api/investigation/retrieve/"
                   +:+ project_uuid) with (url get_req) in Hw1.
    destruct (api._investigations_get (api.strip_slashes sodar_url) token
                project_uuid w) as [[inv|e] w1] eqn:Hget;
      simpl in Hw1; subst w1.
    2:{ erewrite bind_raise by (erewrite bind_raise; done).
        eexists. split; [reflexivity|]. simpl.
        split; [|split; [lia|done]].
        apply Forall_cons. split; [done|by apply Forall_nil_2]. }
    destruct (models.studies inv) as [|[spath study] [|? ?]] eqn:Hst.
    + erewrite bind_raise.
      2:{ erewrite bind_ok by exact Hget. rewrite Hst. reflexivity. }
      rewrite !add_events_app.
      eexists. split; [reflexivity|]. simpl.
      split; [|split; [lia|done]].
      apply Forall_cons. split; [done|by apply Forall_nil_2].
    + destruct (models.assays study) as [|[apath a] [|? ?]] eqn:Has.
      * erewrite bind_raise.
        2:{ erewrite bind_ok by exact Hget. rewrite Hst. simpl.
            erewrite bind_ok by reflexivity. rewrite Has. reflexivity. }
        rewrite !add_events_app.
        eexists. split; [reflexivity|]. simpl.
        split; [|split; [lia|done]].
        apply Forall_cons. split; [done|by apply Forall_nil_2].
      * erewrite bind_ok.
        2:{ erewrite bind_ok by exact Hget. rewrite Hst. simpl.
            erewrite bind_ok by reflexivity. rewrite Has. reflexivity. }
        unfold api.requests_post.
        rewrite logged_request_world by (intros; apply decode_world).
        rewrite !add_events_app.
        eexists. split; [reflexivity|]. simpl.
        split; [|split; [lia|done]].
        apply Forall_cons. split; [done|].
        apply Forall_cons. split; [|by apply Forall_nil_2].
        split; [done|by eexists].
      * erewrite bind_raise.
        2:{ erewrite bind_ok by exact Hget. rewrite Hst. simpl.
            erewrite bind_ok by reflexivity. rewrite Has. reflexivity. }
        rewrite !add_events_app.
        eexists. split; [reflexivity|]. simpl.
        split; [|split; [lia|done]].
        apply Forall_cons. split; [done|by apply Forall_nil_2].
    + erewrite bind_raise.
      2:{ erewrite bind_ok by exact Hget. rewrite Hst. reflexivity. }
      rewrite !add_events_app.
      eexists. split; [reflexivity|]. simpl.
      split; [|split; [lia|done]].
      apply Forall_cons. split; [done|by apply Forall_nil_2].
Qed.

(** [_landingzones_list] returns the zones exactly when the request is
    answered with a status outside 400-599 and a JSON body of the expected
    shape; an error status is raised as [HTTPError] whatever the body is,
    and in every case one GET to the list URL has been sent. *)
Theorem landingzones_list_outcome
    (sodar_url token project_uuid : string) (w : world) :
  let request :=
    {| method := GET;
       url := api.strip_slashes sodar_url +:+ "/landingzones/api/list/"
              +:+ project_uuid;
       headers := api.authorization token;
       data := [] |} in
  let r := api._landingzones_list sodar_url token project_uuid w in
  snd r = add_events w
            [Log DEBUG "HTTP GET request to %s" [ArgStr (url request)];
             Sent request]
  ∧ (∀ zones,
       fst r = Ok zones
       ↔ ∃ resp j,
           answer (sent (trace w)) request = Some resp
           ∧ ¬ (400 ≤ status_code resp < 600)%Z
           ∧ body resp = Some j
           ∧ structure_LandingZones j = Some zones)
  ∧ (∀ resp,
       answer (sent (trace w)) request = Some resp →
       (400 ≤ status_code resp < 600)%Z →
       fst r = Raise (HTTPError (status_code resp)))
  ∧ (answer (sent (trace w)) request = None → fst r = Raise ConnectionError).
Proof.
  intros request r. subst r. split.
  { unfold api._landingzones_list, api.requests_get.
    apply logged_request_world. intros; apply decode_world. }
  unfold api._landingzones_list, api.requests_get, api.requests_send,
    mbind, M_bind, log, emit. simpl. fold request.
  rewrite sent_app. simpl. rewrite app_nil_r.
  destruct (answer (sent (trace w)) request) as [resp|]; simpl.
  2:{ split; [|done]. intros zones. split; [done|].
      by intros (? & ? & ? & _). }
  unfold api.raise_for_status. case_bool_decide as Hst; simpl.
  { split; [|split; [|done]].
    - intros zones. split; [done|].
      intros (resp' & j & [= <-] & Hok & _). by destruct Hok.
    - by intros ? [= <-] _. }
  unfold api.response_json. destruct (body resp) as [j|] eqn:Hb; simpl.
  2:{ split; [|split; [|done]].
      - intros zones. split; [done|].
        intros (resp' & j & [= <-] & _ & Hj & _). congruence.
      - intros ? [= <-] ?. done. }
  unfold api.structure.
  destruct (structure_LandingZones j) as [zs|] eqn:Hz; simpl.
  - split; [|split; [|done]].
    + intros zones. split.
      * intros [= <-]. by exists resp, j.
      * intros (resp' & j' & [= <-] & _ & Hj & Hz'). congruence.
    + intros ? [= <-] ?. done.
  - split; [|split; [|done]].
    + intros zones. split; [done|].
      intros (resp' & j' & [= <-] & _ & Hj & Hz'). congruence.
    + intros ? [= <-] ?. done.
Qed.

(** Without an argument [get_raw] asks for the client's default project:
    the request is the one [_samplesheets_get] makes for that default. *)
Theorem get_raw_default (owner : api.Client)
    (project_uuid : option string) (default_uuid : string) (w : world) :
  Py.absent project_uuid →
  owner.(api.project_uuid) = Some default_uuid →
  default_uuid ≠ "" →
  api.get_raw owner project_uuid w
  = api._samplesheets_get owner.(api.sodar_url) owner.(api.sodar_api_token)
      default_uuid w.
Proof.
  intros Habs Hdef Hne. apply truthy_false in Habs.
  unfold api.get_raw, Py.or_. rewrite Habs, Hdef. simpl.
  by destruct (String.eqb_spec default_uuid "").
Qed.

(** An error status of the service goes through [get_raw] and [get]
    unchanged: [get] raises [HTTPError] with that status after the one
    request, and no reader is called. *)
Theorem get_http_error (owner : api.Client) (project_uuid : string)
    (default_uuid : option string) (resp : response json) (w : world) :
  project_uuid ≠ "" →
  answer (sent (trace w))
    {| method := GET;
       url := api.strip_slashes owner.(api.sodar_url)
              +:+ "/samplesheets/api/export/json/" +:+ project_uuid;
       headers := api.authorization owner.(api.sodar_api_token);
       data := [] |}
  = Some resp →
  (400 ≤ status_code resp < 600)%Z →
  let r := api.get owner (Some project_uuid) w in
  fst r = Raise (HTTPError (status_code resp))
  ∧ sent (trace (snd r))
    = sent (trace w) ++
      [{| method := GET;
          url := api.strip_slashes owner.(api.sodar_url)
                 +:+ "/samplesheets/api/export/json/" +:+ project_uuid;
          headers := api.authorization owner.(api.sodar_api_token);
          data := [] |}]
  ∧ reads (trace (snd r)) = reads (trace w).
Proof.
  intros Hne Hans Hst r. subst r.
  assert (api.get_raw owner (Some project_uuid) w
          = (Raise (HTTPError (status_code resp)),
             add_events w
               [Log DEBUG "HTTP GET request to %s"
                  [ArgStr (api.strip_slashes owner.(api.sodar_url)
                           +:+ "/samplesheets/api/export/json/"
                           +:+ project_uuid)];
                Sent {| method := GET;
                        url := api.strip_slashes owner.(api.sodar_url)
                               +:+ "/samplesheets/api/export/json/"
                               +:+ project_uuid;
                        headers :=
                          api.authorization owner.(api.sodar_api_token);
                        data := [] |}])) as Hraw.
  { unfold api.get_raw, Py.or_. simpl.
    destruct (String.eqb_spec project_uuid "") as [|_]; [done|]. simpl.
    unfold api._samplesheets_get, api.requests_get, api.requests_send,
      mbind, M_bind, log, emit. simpl.
    rewrite sent_app. simpl. rewrite app_nil_r, Hans. simpl.
    unfold api.raise_for_status. rewrite bool_decide_eq_true_2 by done.
    simpl. by rewrite add_events_app. }
  unfold api.get. erewrite bind_raise by exact Hraw. simpl.
  split; [done|]. split.
  - rewrite sent_app. done.
  - unfold reads. rewrite omap_app. simpl. by rewrite app_nil_r.
Qed.

(** When the reader accepts every entry of a well-formed mapping, the
    comprehension returns the entries in order, each key with what the
    reader made of its value. *)
Lemma comprehension_result {V R} (rd : reader) (g : string → V → string + R)
    (items : Py.dict V) (acc : Py.dict R) (w : world) :
  NoDup (Py.keys acc ++ Py.keys items) →
  accepts g items →
  ∃ parsed,
    dict_comprehension (λ k d, api.read rd k (g k d)) items acc w
    = (Ok (acc ++ parsed), add_events w (Read rd <$> Py.keys items))
    ∧ Forall2 (λ kd kx, kx.1 = kd.1 ∧ g kd.1 kd.2 = inr kx.2) items parsed.
Proof.
  revert acc w. induction items as [|[k d] items IH]; intros acc w Hnd Hacc.
  - exists []. simpl. rewrite add_events_nil, app_nil_r. by split.
  - destruct (Hacc k d) as [x Hx]; [left|].
    assert (k ∉ Py.keys acc) as Hk.
    { apply NoDup_app in Hnd as (_ & Hnd & _).
      intros Hin. apply (Hnd k Hin). left. }
    destruct (IH (Py.setitem acc k x) (add_events w [Read rd k]))
      as (parsed & Hres & Hall).
    { rewrite (keys_setitem_fresh acc k x Hk), keys_snoc. exact Hnd. }
    { intros k' d' Hin. apply Hacc. by right. }
    exists ((k, x) :: parsed). split.
    + rewrite comprehension_cons, Hx.
      erewrite bind_ok by apply read_accepted.
      rewrite Hres, add_events_app, (keys_setitem_fresh acc k x Hk).
      by rewrite <- app_assoc.
    + by constructor.
Qed.

(** The assembler on a payload with one study, when the readers accept
    everything: the investigation is read first, then the study, then every
    assay, each assay under the [file] of the parsed study; the bundle holds
    the parsed investigation under the payload's path, the one study under
    its key and the assays under their keys, in the payload's order. *)
Theorem get_one_study
    (owner : api.Client) (project_uuid : option string) (raw_data : json)
    (w w1 : world) (spath : string) (sdetails : sheet_entry)
    (i : InvestigationInfo) (study : Study) :
  api.get_raw owner project_uuid w = (Ok raw_data, w1) →
  raw_studies (sheet raw_data) = [(spath, sdetails)] →
  Py.wf (raw_assays (sheet raw_data)) →
  read_investigation (tsv (raw_investigation (sheet raw_data)))
    (path (raw_investigation (sheet raw_data))) = inr i →
  read_study spath (tsv sdetails) spath = inr study →
  accepts (λ path details, read_assay (file study) path (tsv details) path)
    (raw_assays (sheet raw_data)) →
  ∃ bundle,
    api.get owner project_uuid w
    = (Ok bundle,
       add_events w1
         (Read InvestigationReader (path (raw_investigation (sheet raw_data)))
          :: Read StudyReader spath
          :: (Read AssayReader <$> Py.keys (raw_assays (sheet raw_data)))))
    ∧ api.investigation bundle = i
    ∧ api.investigation_filename bundle
      = path (raw_investigation (sheet raw_data))
    ∧ api.studies bundle = [(spath, study)]
    ∧ Forall2 (λ kd kx,
                 kx.1 = kd.1
                 ∧ read_assay (file study) kd.1 (tsv kd.2) kd.1 = inr kx.2)
        (raw_assays (sheet raw_data)) (api.assays bundle).
Proof.
  intros Hraw Hst Hwf Hi Hs Hacc.
  destruct (comprehension_result AssayReader
              (λ path details,
                 read_assay (file study) path (tsv details) path)
              (raw_assays (sheet raw_data)) []
              (add_events w1
                 [Read InvestigationReader
                    (path (raw_investigation (sheet raw_data)));
                  Read StudyReader spath]))
    as (parsed & Hres & Hall); [done|done|].
  eexists. split; [|split; [|split; [|split]]].
  - unfold api.get. erewrite bind_ok by exact Hraw.
    rewrite Hi. erewrite bind_ok by apply read_accepted.
    rewrite Hst. rewrite comprehension_cons, Hs.
    erewrite bind_ok.
    2:{ erewrite bind_ok by apply read_accepted. reflexivity. }
    rewrite bool_decide_eq_false_2 by (simpl; lia).
    erewrite bind_ok by reflexivity.
    rewrite add_events_app. simpl app.
    erewrite bind_ok by exact Hres.
    rewrite add_events_app. reflexivity.
  - done.
  - done.
  - done.
  - done.
Qed.

End client_more.

(** * Further properties of the safe file writer *)

Section writer_more.
Context `{Rendering} `{Files}.

(** [get_terminal_columns] leaves the world alone and returns a positive
    width below 32768. The first of the descriptors 0, 1, 2 that reports a
    window size decides alone: its column count, read as a signed 16-bit
    number, when that is positive, else 80, even when a later descriptor
    reports a real width; 80 when none reports. A count up to 32767 reads
    as itself, one from 32768 to 65535 reads negative and so gives 80. *)
Theorem get_terminal_columns_width (w : world) :
  ∃ cols,
    common.get_terminal_columns w = (Ok cols, w)
    ∧ (0 < cols < 32768)%Z
    ∧ (∀ rows columns,
         winsize w 0%Z = Some (rows, columns) →
         cols = if bool_decide (0 < common.int16 columns)%Z
                then common.int16 columns else 80%Z)
    ∧ (∀ rows columns,
         winsize w 0%Z = None → winsize w 1%Z = Some (rows, columns) →
         cols = if bool_decide (0 < common.int16 columns)%Z
                then common.int16 columns else 80%Z)
    ∧ (∀ rows columns,
         winsize w 0%Z = None → winsize w 1%Z = None →
         winsize w 2%Z = Some (rows, columns) →
         cols = if bool_decide (0 < common.int16 columns)%Z
                then common.int16 columns else 80%Z)
    ∧ (winsize w 0%Z = None → winsize w 1%Z = None →
       winsize w 2%Z = None → cols = 80%Z)
    ∧ (∀ columns,
         ((0 ≤ columns < 32768)%Z → common.int16 columns = columns)
         ∧ ((32768 ≤ columns < 65536)%Z →
            common.int16 columns = (columns - 65536)%Z)).
Proof.
  assert (∀ c, (-32768 ≤ common.int16 c < 32768)%Z) as Hrange.
  { intros c. unfold common.int16.
    pose proof (Z.mod_pos_bound (c + 32768) 65536 ltac:(lia)). lia. }
  assert (∀ columns,
            ((0 ≤ columns < 32768)%Z → common.int16 columns = columns)
            ∧ ((32768 ≤ columns < 65536)%Z →
               common.int16 columns = (columns - 65536)%Z)) as Hwrap.
  { intros c. unfold common.int16. split; intros Hc.
    - rewrite Z.mod_small by lia. lia.
    - replace (c + 32768)%Z with (c - 32768 + 1 * 65536)%Z by lia.
      rewrite Z.mod_add by lia. rewrite Z.mod_small by lia. lia. }
  unfold common.get_terminal_columns.
  destruct (winsize w 0%Z) as [[r0 c0]|], (winsize w 1%Z) as [[r1 c1]|],
    (winsize w 2%Z) as [[r2 c2]|]; cbv beta iota zeta.
  all: try pose proof (Hrange c0); try pose proof (Hrange c1);
    try pose proof (Hrange c2).
  all: repeat case_bool_decide; try lia.
  all: eexists; split; [reflexivity|].
  all: split; [lia|].
  all: repeat split; intros; simplify_eq; try done; try (by apply Hwrap).
  all: repeat case_bool_decide; done || lia.
Qed.

(** Asked to write to a file without [answer_yes] when standard input is
    at its end, the call raises [EOFError] after the prompt; no file has
    changed. *)
Theorem overwrite_helper_eof (out_path : common.path_arg) (contents : string)
    (show_diff show_diff_side_by_side : bool) (out_file : common.out_stream)
    (w : world) :
  common.is_dash out_path = false →
  stdin w = [] →
  ∃ evs,
    common.overwrite_helper out_path contents true show_diff
      show_diff_side_by_side false out_file w
    = (Raise EOFError,
       add_events w
         (evs ++
          [Log INFO "About to write file contents to %s"
             [ArgStr (common.str out_path)];
           Log INFO "See above for the diff that will be applied." [];
           Prompt "Is this OK? [yN] "]))
    ∧ Forall is_display evs.
Proof.
  intros Hdash Hin.
  assert (∀ evs,
            common.overwrite_helper out_path contents true false
              show_diff_side_by_side false out_file (add_events w evs)
            = (Raise EOFError,
               add_events w
                 (evs ++
                  [Log INFO "About to write file contents to %s"
                     [ArgStr (common.str out_path)];
                   Log INFO "See above for the diff that will be applied." [];
                   Prompt "Is this OK? [yN] "]))) as Hwrite.
  { intros evs. unfold common.overwrite_helper. rewrite Hdash.
    erewrite bind_ok by reflexivity. erewrite bind_ok by reflexivity.
    erewrite bind_ok by reflexivity.
    erewrite bind_raise.
    2:{ change (negb false) with true. cbv iota.
        erewrite bind_raise; [reflexivity|].
        unfold common.input. simpl stdin. rewrite Hin. reflexivity. }
    unfold emit. simpl snd.
    rewrite !add_events_app, <- ?app_assoc. reflexivity. }
  destruct show_diff.
  - destruct (show_diff_phase out_path contents true show_diff_side_by_side
                false out_file w) as (evs & Hevs & ->).
    exists evs. by rewrite Hwrite.
  - exists []. split; [|done].
    rewrite <- (add_events_nil w) at 1. by rewrite Hwrite.
Qed.

(** Reading text twice through universal newlines is reading it once. *)
Lemma universal_newlines_idemp (s : string) :
  Py.universal_newlines (Py.universal_newlines s) = Py.universal_newlines s.
Proof.
  apply universal_newlines_no_cr.
  by apply (universal_newlines_clean (String.length s)).
Qed.

(** After a confirmed write the file the destination denotes exists and,
    read back as text, is the content as a text-mode read gives it back
    (CR LF and CR as LF); every other file is as it was. The file is the
    one [pathlib.Path(out_path)] denotes, however the path is spelled. *)
Theorem write_then_read (out_path : common.path_arg) (contents : string)
    (show_diff show_diff_side_by_side : bool) (out_file : common.out_stream)
    (w : world) (answer : string) (rest : list string) :
  common.is_dash out_path = false →
  stdin w = answer :: rest →
  Py.startswith (Py.lower answer) "y" = true →
  let w' :=
    snd (common.overwrite_helper out_path contents true show_diff
           show_diff_side_by_side false out_file w) in
  fst (common.exists_ (common.Path out_path) w') = Ok true
  ∧ fst (common.read_text (common.Path out_path) w')
    = Ok (Py.universal_newlines contents)
  ∧ (∀ other, other ≠ common.Path out_path → fs w' !! other = fs w !! other).
Proof.
  intros Hdash Hin Hyes w'.
  destruct (prompted_write out_path contents show_diff show_diff_side_by_side
              out_file w answer rest Hdash Hin) as (_ & _ & Hfs).
  destruct (Py.startswith (Py.lower answer) "y"); [|done]. subst w'.
  unfold common.exists_, common.read_text. cbv beta.
  change (fst (?a, ?b)) with a. rewrite Hfs.
  rewrite lookup_insert_eq. simpl. split; [done|]. split.
  - f_equal.
    transitivity (Py.universal_newlines (Py.universal_newlines contents));
      [reflexivity|].
    by rewrite universal_newlines_idemp.
  - intros other Hother. by rewrite lookup_insert_ne.
Qed.

Lemma get_terminal_columns_winsize (w w' : world) :
  winsize w = winsize w' →
  fst (common.get_terminal_columns w) = fst (common.get_terminal_columns w').
Proof.
  intros Hws. unfold common.get_terminal_columns. rewrite Hws.
  destruct (winsize w' 0%Z) as [[? ?]|], (winsize w' 1%Z) as [[? ?]|],
    (winsize w' 2%Z) as [[? ?]|]; simpl; try case_bool_decide; done.
Qed.

Lemma old_lines_bind (out_path : common.path_arg) (w : world)
    (k : list string → M common.tempfile) :
  ((if negb (common.is_dash out_path)
    then common.exists_ (common.Path out_path)
    else mret false)
   ≫= λ readable : bool,
        (if readable
         then common.read_text (common.Path out_path)
              ≫= λ text : string, mret (Py.splitlines text)
         else mret [])
        ≫= k) w
  = k (old_lines_of out_path w) w.
Proof.
  unfold old_lines_of.
  destruct (common.is_dash out_path); simpl negb; cbv iota;
    erewrite bind_ok by reflexivity; [reflexivity|].
  simpl andb.
  destruct (bool_decide (is_Some (fs w !! common.Path out_path)));
    reflexivity.
Qed.

(** Two calls are shown the same diff when the terminal is the same, the
    destination has the same old lines and the contents have the same new
    lines. *)
Lemma show_diff_phase_pair (out_path : common.path_arg)
    (contents contents' : string)
    (do_write side_by_side answer_yes : bool) (out_file : common.out_stream)
    (w w' : world) :
  winsize w = winsize w' →
  old_lines_of out_path w = old_lines_of out_path w' →
  Py.splitlines (staged contents) = Py.splitlines (staged contents') →
  ∃ evs,
    Forall is_display evs
    ∧ common.overwrite_helper out_path contents do_write true side_by_side
        answer_yes out_file w
      = common.overwrite_helper out_path contents do_write false side_by_side
          answer_yes out_file (add_events w evs)
    ∧ common.overwrite_helper out_path contents' do_write true side_by_side
        answer_yes out_file w'
      = common.overwrite_helper out_path contents' do_write false side_by_side
          answer_yes out_file (add_events w' evs).
Proof.
  intros Hws Hold Hnew. unfold common.overwrite_helper.
  set (old := old_lines_of out_path w) in *.
  set (new := Py.splitlines (staged contents)) in *.
  destruct side_by_side; simpl negb; cbv iota.
  - destruct (get_terminal_columns_world w) as [cols Hcols].
    destruct (get_terminal_columns_world w') as [cols' Hcols'].
    assert (cols' = cols) as ->.
    { pose proof (get_terminal_columns_winsize w w' Hws) as E.
      rewrite Hcols, Hcols' in E. by injection E. }
    set (ev := λ line : string,
           if common.has_buffer out_file
           then OutBufferWrite (Py.encode_utf8 (line +:+ String "010"%char ""))
           else OutWrite (line +:+ String "010"%char "")).
    exists ((ev <$> make_table cols old new (common.str out_path)
                      (common.str out_path)) ++ [OutFlush]).
    split.
    { apply Forall_app. split; [|by repeat constructor].
      apply Forall_fmap, Forall_forall. intros line _. subst ev. simpl.
      by destruct (common.has_buffer out_file). }
    split.
    + erewrite bind_ok.
      2:{ rewrite old_lines_bind. fold old.
          unfold common.read. simpl fst. cbv iota beta.
          erewrite bind_ok.
          2:{ erewrite bind_ok by exact Hcols.
              unfold common.for_in, common.icdiff_make_table.
              erewrite bind_ok.
              2:{ apply (for_each_emit _ ev). intros line w0. subst ev.
                  simpl. by destruct (common.has_buffer out_file). }
              reflexivity. }
          erewrite bind_ok by reflexivity. simpl. reflexivity. }
      rewrite add_events_app. reflexivity.
    + rewrite Hnew. erewrite bind_ok.
      2:{ rewrite old_lines_bind, <- Hold.
          unfold common.read. simpl fst. cbv iota beta.
          erewrite bind_ok.
          2:{ erewrite bind_ok by exact Hcols'.
              unfold common.for_in, common.icdiff_make_table.
              erewrite bind_ok.
              2:{ apply (for_each_emit _ ev). intros line w0. subst ev.
                  simpl. by destruct (common.has_buffer out_file). }
              reflexivity. }
          erewrite bind_ok by reflexivity. simpl. reflexivity. }
      rewrite add_events_app. reflexivity.
  - set (ev := λ line : string,
           if Py.startswith line "+++" || Py.startswith line "---" then
             OutWrite (colored line white)
           else if Py.startswith line "@@" then
             OutWrite (colored line cyan)
           else if Py.startswith line "+" then
             OutWrite (colored line green +:+ String "010"%char "")
           else if Py.startswith line "-" then
             OutWrite (colored line red +:+ String "010"%char "")
           else
             OutWrite (line +:+ String "010"%char "")).
    exists ((ev <$> unified_diff old new (common.str out_path)
                      (common.str out_path)) ++ [OutFlush]).
    split.
    { apply Forall_app. split; [|by repeat constructor].
      apply Forall_fmap, Forall_forall. intros line _. subst ev. simpl.
      by repeat case_match. }
    split.
    + erewrite bind_ok.
      2:{ rewrite old_lines_bind. fold old.
          unfold common.read. simpl fst. cbv iota beta.
          erewrite bind_ok.
          2:{ unfold common.for_in, common.difflib_unified_diff.
              erewrite bind_ok.
              2:{ apply (for_each_emit _ ev). intros line w0. subst ev.
                  simpl. by repeat case_match. }
              reflexivity. }
          erewrite bind_ok by reflexivity. simpl. reflexivity. }
      rewrite add_events_app. reflexivity.
    + rewrite Hnew. erewrite bind_ok.
      2:{ rewrite old_lines_bind, <- Hold.
          unfold common.read. simpl fst. cbv iota beta.
          erewrite bind_ok.
          2:{ unfold common.for_in, common.difflib_unified_diff.
              erewrite bind_ok.
              2:{ apply (for_each_emit _ ev). intros line w0. subst ev.
                  simpl. by repeat case_match. }
              reflexivity. }
          erewrite bind_ok by reflexivity. simpl. reflexivity. }
      rewrite add_events_app. reflexivity.
Qed.

(** A destination that does not exist is diffed against nothing, exactly
    like one that exists and is empty: both calls show the same. *)
Theorem missing_destination_is_empty (out_path : common.path_arg)
    (contents : string) (show_diff_side_by_side answer_yes : bool)
    (out_file : common.out_stream) (w : world) :
  fs w !! common.Path out_path = None →
  let w0 := {| fs := <[common.Path out_path := ""]> (fs w);
               winsize := winsize w; stdin := stdin w; trace := trace w |} in
  trace (snd (common.overwrite_helper out_path contents false true
                show_diff_side_by_side answer_yes out_file w))
  = trace (snd (common.overwrite_helper out_path contents false true
                  show_diff_side_by_side answer_yes out_file w0)).
Proof.
  intros Hnone w0.
  destruct (show_diff_phase_pair out_path contents contents false
              show_diff_side_by_side answer_yes out_file w w0)
    as (evs & _ & -> & ->); [done| |done|by rewrite !write_phase_off].
  unfold old_lines_of. subst w0. simpl fs.
  rewrite Hnone, lookup_insert_eq.
  by destruct (common.is_dash out_path).
Qed.

(** For the destination ["-"] nothing depends on the files: two worlds
    with the same terminal and the same past are shown and written the
    same, whether or not one of them has a file of that name. *)
Theorem stdout_ignores_files (contents : string)
    (do_write show_diff show_diff_side_by_side answer_yes : bool)
    (out_file : common.out_stream) (w w' : world) :
  winsize w = winsize w' →
  trace w = trace w' →
  let run := common.overwrite_helper (common.PathStr "-") contents do_write
               show_diff show_diff_side_by_side answer_yes out_file in
  fst (run w) = fst (run w') ∧ trace (snd (run w)) = trace (snd (run w')).
Proof.
  intros Hws Htr run. subst run.
  assert (∀ evs,
            fst (common.overwrite_helper (common.PathStr "-") contents
                   do_write false show_diff_side_by_side answer_yes out_file
                   (add_events w evs))
            = fst (common.overwrite_helper (common.PathStr "-") contents
                     do_write false show_diff_side_by_side answer_yes
                     out_file (add_events w' evs))
            ∧ trace (snd (common.overwrite_helper (common.PathStr "-")
                            contents do_write false show_diff_side_by_side
                            answer_yes out_file (add_events w evs)))
              = trace (snd (common.overwrite_helper (common.PathStr "-")
                              contents do_write false show_diff_side_by_side
                              answer_yes out_file (add_events w' evs))))
    as Hwrite.
  { intros evs. destruct do_write.
    - rewrite !write_phase_stdout by done. simpl. by rewrite Htr.
    - rewrite !write_phase_off. simpl. by rewrite Htr. }
  destruct show_diff.
  - destruct (show_diff_phase_pair (common.PathStr "-") contents contents
                do_write show_diff_side_by_side answer_yes out_file w w')
      as (evs & _ & -> & ->); [done|done|done|]. apply Hwrite.
  - rewrite <- (add_events_nil w), <- (add_events_nil w'). apply Hwrite.
Qed.

Lemma splitlines_from_cons (cur : string) (c : ascii) (rest : string) :
  Py.splitlines_from cur (String c rest)
  = if Py.is_linebreak c then
      cur :: match rest with
             | String c' rest' =>
                 if Ascii.eqb c "013"%char && Ascii.eqb c' "010"%char
                 then Py.splitlines_from "" rest'
                 else Py.splitlines_from "" rest
             | EmptyString => Py.splitlines_from "" rest
             end
    else Py.splitlines_from (cur +:+ String c "") rest.
Proof. reflexivity. Qed.

Lemma snoc_not_empty (s : string) (c : ascii) :
  String.eqb (s +:+ String c "") "" = false.
Proof. by destruct s. Qed.

Lemma splitlines_from_final_newline (n : nat) (s cur : string) (c : ascii) :
  String.length s ≤ n →
  Py.is_linebreak c = false →
  Py.splitlines_from cur ((s +:+ String c "") +:+ String "010"%char "")
  = Py.splitlines_from cur (s +:+ String c "").
Proof.
  intros Hlen Hc. revert s cur Hlen.
  assert (Ascii.eqb c "010"%char = false) as Hlf.
  { destruct (Ascii.eqb_spec c "010"%char) as [->|]; done. }
  induction n as [|n IH]; intros s cur Hlen.
  - destruct s; [|simpl in Hlen; lia].
    change (Py.splitlines_from cur (String c (String "010"%char ""))
            = Py.splitlines_from cur (String c "")).
    rewrite !splitlines_from_cons, Hc.
    simpl. by rewrite snoc_not_empty.
  - destruct s as [|d s'].
    { apply (IH "" cur). simpl. lia. }
    change (S (String.length s') ≤ S n) in Hlen.
    change (Py.splitlines_from cur
              (String d ((s' +:+ String c "") +:+ String "010"%char ""))
            = Py.splitlines_from cur (String d (s' +:+ String c ""))).
    rewrite !(splitlines_from_cons cur d).
    destruct (Py.is_linebreak d).
    2:{ apply IH. lia. }
    f_equal. destruct s' as [|d' s''].
    + change (match String c (String "010"%char "") with
              | String c' rest' =>
                  if Ascii.eqb d "013"%char && Ascii.eqb c' "010"%char
                  then Py.splitlines_from "" rest'
                  else Py.splitlines_from "" (String c (String "010"%char ""))
              | EmptyString =>
                  Py.splitlines_from "" (String c (String "010"%char ""))
              end
              = match String c "" with
                | String c' rest' =>
                    if Ascii.eqb d "013"%char && Ascii.eqb c' "010"%char
                    then Py.splitlines_from "" rest'
                    else Py.splitlines_from "" (String c "")
                | EmptyString => Py.splitlines_from "" (String c "")
                end).
      cbv iota. rewrite Hlf, andb_false_r.
      apply (IH "" ""). simpl. lia.
    + change (S (S (String.length s'')) ≤ S n) in Hlen.
      change ((if Ascii.eqb d "013"%char && Ascii.eqb d' "010"%char
               then Py.splitlines_from ""
                      ((s'' +:+ String c "") +:+ String "010"%char "")
               else Py.splitlines_from ""
                      ((String d' s'' +:+ String c "")
                       +:+ String "010"%char ""))
              = (if Ascii.eqb d "013"%char && Ascii.eqb d' "010"%char
                 then Py.splitlines_from "" (s'' +:+ String c "")
                 else Py.splitlines_from "" (String d' s'' +:+ String c ""))).
      destruct (Ascii.eqb d "013"%char && Ascii.eqb d' "010"%char).
      * apply IH. lia.
      * apply IH. simpl. lia.
Qed.

Lemma splitlines_final_newline (s : string) (c : ascii) :
  Py.is_linebreak c = false →
  Py.splitlines ((s +:+ String c "") +:+ String "010"%char "")
  = Py.splitlines (s +:+ String c "").
Proof.
  intros Hc. by apply (splitlines_from_final_newline (String.length s)).
Qed.

(** Read back as text, content that ends in a character other than a line
    boundary still ends in it, and a newline added after it stays one. *)
Lemma universal_newlines_final_newline (n : nat) (s : string) (c : ascii) :
  String.length s ≤ n →
  Py.is_linebreak c = false →
  ∃ t,
    Py.universal_newlines (s +:+ String c "") = t +:+ String c ""
    ∧ Py.universal_newlines ((s +:+ String c "") +:+ String "010"%char "")
      = (t +:+ String c "") +:+ String "010"%char "".
Proof.
  intros Hlen Hc. revert s Hlen.
  assert (Ascii.eqb c "010"%char = false) as Hlf.
  { destruct (Ascii.eqb_spec c "010"%char) as [->|]; done. }
  assert (Ascii.eqb c "013"%char = false) as Hcr.
  { destruct (Ascii.eqb_spec c "013"%char) as [->|]; done. }
  assert (∃ t,
            Py.universal_newlines (String c "") = t +:+ String c ""
            ∧ Py.universal_newlines (String c (String "010"%char ""))
              = (t +:+ String c "") +:+ String "010"%char "") as Hbase.
  { exists "". rewrite !universal_newlines_cons, Hcr. by split. }
  induction n as [|n IH]; intros s Hlen.
  { destruct s; [exact Hbase|simpl in Hlen; lia]. }
  destruct s as [|d s']; [exact Hbase|].
  change (S (String.length s') ≤ S n) in Hlen.
  change (∃ t,
            Py.universal_newlines (String d (s' +:+ String c ""))
            = t +:+ String c ""
            ∧ Py.universal_newlines
                (String d ((s' +:+ String c "") +:+ String "010"%char ""))
              = (t +:+ String c "") +:+ String "010"%char "").
  rewrite !(universal_newlines_cons d).
  destruct (Ascii.eqb d "013"%char).
  - assert (∃ t,
              match s' +:+ String c "" with
              | String c' rest' =>
                  if Ascii.eqb c' "010"%char then Py.universal_newlines rest'
                  else Py.universal_newlines (s' +:+ String c "")
              | EmptyString => Py.universal_newlines (s' +:+ String c "")
              end = t +:+ String c ""
              ∧ match (s' +:+ String c "") +:+ String "010"%char "" with
                | String c' rest' =>
                    if Ascii.eqb c' "010"%char
                    then Py.universal_newlines rest'
                    else Py.universal_newlines
                           ((s' +:+ String c "") +:+ String "010"%char "")
                | EmptyString =>
                    Py.universal_newlines
                      ((s' +:+ String c "") +:+ String "010"%char "")
                end = (t +:+ String c "") +:+ String "010"%char "")
      as (t & Ht & Ht').
    { destruct s' as [|d' s''].
      - change (∃ t,
                  (if Ascii.eqb c "010"%char then Py.universal_newlines ""
                   else Py.universal_newlines (String c ""))
                  = t +:+ String c ""
                  ∧ (if Ascii.eqb c "010"%char
                     then Py.universal_newlines (String "010"%char "")
                     else Py.universal_newlines
                            (String c (String "010"%char "")))
                    = (t +:+ String c "") +:+ String "010"%char "").
        rewrite Hlf. exact Hbase.
      - change (S (S (String.length s'')) ≤ S n) in Hlen.
        change (∃ t,
                  (if Ascii.eqb d' "010"%char
                   then Py.universal_newlines (s'' +:+ String c "")
                   else Py.universal_newlines (String d' s'' +:+ String c ""))
                  = t +:+ String c ""
                  ∧ (if Ascii.eqb d' "010"%char
                     then Py.universal_newlines
                            ((s'' +:+ String c "") +:+ String "010"%char "")
                     else Py.universal_newlines
                            ((String d' s'' +:+ String c "")
                             +:+ String "010"%char ""))
                    = (t +:+ String c "") +:+ String "010"%char "").
        destruct (Ascii.eqb d' "010"%char).
        + apply IH. lia.
        + apply IH. simpl. lia. }
    exists (String "010"%char t). split.
    + change (String "010"%char t +:+ String c "")
        with (String "010"%char (t +:+ String c "")).
      by rewrite <- Ht.
    + change ((String "010"%char t +:+ String c "") +:+ String "010"%char "")
        with (String "010"%char
                ((t +:+ String c "") +:+ String "010"%char "")).
      by rewrite <- Ht'.
  - destruct (IH s') as (t & Ht & Ht'); [lia|].
    exists (String d t). split.
    + change (String d t +:+ String c "")
        with (String d (t +:+ String c "")).
      by rewrite <- Ht.
    + change ((String d t +:+ String c "") +:+ String "010"%char "")
        with (String d ((t +:+ String c "") +:+ String "010"%char "")).
      by rewrite <- Ht'.
Qed.

(** A final newline is not part of the comparison: for contents that end
    in a character other than a line boundary, the call that only shows the
    diff does the same with and without a newline added at the end. *)
Theorem final_newline_not_shown (out_path : common.path_arg) (s : string)
    (c : ascii) (show_diff_side_by_side answer_yes : bool)
    (out_file : common.out_stream) (w : world) :
  Py.is_linebreak c = false →
  common.overwrite_helper out_path
    ((s +:+ String c "") +:+ String "010"%char "")
    false true show_diff_side_by_side answer_yes out_file w
  = common.overwrite_helper out_path (s +:+ String c "")
      false true show_diff_side_by_side answer_yes out_file w.
Proof.
  intros Hc.
  destruct (show_diff_phase_pair out_path
              ((s +:+ String c "") +:+ String "010"%char "")
              (s +:+ String c "") false show_diff_side_by_side answer_yes
              out_file w w)
    as (evs & _ & -> & ->); [done|done| |by rewrite !write_phase_off].
  rewrite (staged_text (s +:+ String c "")),
    (staged_text ((s +:+ String c "") +:+ String "010"%char "")).
  destruct (universal_newlines_final_newline (String.length s) s c)
    as (t & Ht & Ht'); [done|done|].
  rewrite Ht, Ht'.
  by apply splitlines_final_newline.
Qed.

End writer_more.

(** * [find_base_path] *)

Section find_base_path.
Variable exists_ : paths.Path → bool.

Lemma iter_parent_shift (j : nat) (p : paths.Path) :
  Nat.iter j paths.parent (paths.parent p)
  = paths.parent (Nat.iter j paths.parent p).
Proof. induction j as [|j IH]; [done|]. simpl. by rewrite IH. Qed.

(** When the marker [.snappy_pipeline] is under the path or one of its
    ancestors, [find_base_path] returns the [str] of the nearest such
    directory, after as many iterations as it lies above the path. *)
Theorem find_base_path_nearest (base_path : paths.Path) (k fuel : nat) :
  (∀ j, j < k →
        exists_ (paths.joinpath (Nat.iter j paths.parent base_path)
                   ".snappy_pipeline") = false) →
  exists_ (paths.joinpath (Nat.iter k paths.parent base_path)
             ".snappy_pipeline") = true →
  k < fuel →
  paths.find_base_path_loop exists_ fuel base_path
  = Some (paths.VStr (paths.str (Nat.iter k paths.parent base_path))).
Proof.
  revert base_path fuel. induction k as [|k IH]; intros p fuel Hbelow Hk Hf.
  - destruct fuel as [|fuel]; [lia|]. simpl in *. by rewrite Hk.
  - destruct fuel as [|fuel]; [lia|].
    pose proof (Hbelow 0 ltac:(lia)) as H0. simpl in H0.
    simpl paths.find_base_path_loop. rewrite H0.
    rewrite (IH (paths.parent p) fuel).
    + simpl. by rewrite iter_parent_shift.
    + intros j Hj. rewrite iter_parent_shift. apply (Hbelow (S j)). lia.
    + rewrite iter_parent_shift. exact Hk.
    + lia.
Qed.

Lemma parts_iter_parent (j : nat) (p : paths.Path) :
  paths.parts (Nat.iter j paths.parent p)
  = take (length (paths.parts p) - j) (paths.parts p)
  ∧ paths.absolute (Nat.iter j paths.parent p) = paths.absolute p.
Proof.
  induction j as [|j [IHp IHa]].
  - simpl. by rewrite Nat.sub_0_r, firstn_all.
  - simpl. split; [|done]. rewrite IHp.
    destruct (decide (length (paths.parts p) ≤ j)) as [Hle|Hgt].
    + replace (length (paths.parts p) - j) with 0 by lia.
      replace (length (paths.parts p) - S j) with 0 by lia. done.
    + rewrite removelast_firstn_len.
      rewrite length_take, take_take. f_equal. lia.
Qed.

Lemma iter_parent_top (j : nat) (p : paths.Path) :
  length (paths.parts p) ≤ j →
  Nat.iter j paths.parent p
  = Nat.iter (length (paths.parts p)) paths.parent p.
Proof.
  intros Hj.
  destruct (parts_iter_parent j p) as [Hp Ha].
  destruct (parts_iter_parent (length (paths.parts p)) p) as [Hp' Ha'].
  destruct (Nat.iter j paths.parent p) as [a l],
    (Nat.iter (length (paths.parts p)) paths.parent p) as [a' l'].
  simpl in *. subst.
  replace (length (paths.parts p) - j) with 0 by lia.
  by rewrite Nat.sub_diag.
Qed.

(** When the marker is neither under the path nor under any of its
    ancestors, [find_base_path] does not return: at the top the parent of
    the path is the path itself, and the loop condition compares a [Path]
    with a [str], which are never equal. *)
Theorem find_base_path_never_returns (base_path : paths.Path) (fuel : nat) :
  (∀ j, j ≤ length (paths.parts base_path) →
        exists_ (paths.joinpath (Nat.iter j paths.parent base_path)
                   ".snappy_pipeline") = false) →
  paths.find_base_path_loop exists_ fuel base_path = None.
Proof.
  intros Hnone.
  assert (∀ j, exists_ (paths.joinpath (Nat.iter j paths.parent base_path)
                          ".snappy_pipeline") = false) as Hall.
  { intros j. destruct (decide (j ≤ length (paths.parts base_path))).
    - by apply Hnone.
    - rewrite iter_parent_top by lia. by apply Hnone. }
  clear Hnone. revert base_path Hall.
  induction fuel as [|fuel IH]; intros p Hall; [done|].
  pose proof (Hall 0) as H0. simpl in H0.
  simpl. rewrite H0. apply IH.
  intros j. rewrite iter_parent_shift. apply (Hall (S j)).
Qed.

(** Whatever [find_base_path] returns is a [str]: the [return base_path]
    after the loop is never reached. *)
Theorem find_base_path_returns_str (base_path : paths.Path) (fuel : nat)
    (v : paths.value) :
  paths.find_base_path_loop exists_ fuel base_path = Some v →
  ∃ q, v = paths.VStr (paths.str q).
Proof.
  revert base_path. induction fuel as [|fuel IH]; intros p; [done|].
  simpl. destruct (exists_ _).
  - intros [= <-]. by eexists.
  - apply IH.
Qed.

End find_base_path.

(** * [yield_files_recursively] *)

Section yield_files.

Lemma last_char_slash (s : string) :
  bool_decide (paths.last_char s = Some "/"%char) = Py.endswith s "/".
Proof.
  induction s as [|c s IH]; [done|].
  destruct s as [|c' s'].
  - simpl. rewrite orb_false_r.
    destruct (Ascii.eqb_spec c "/"%char) as [->|Hne].
    + by rewrite bool_decide_eq_true_2.
    + rewrite bool_decide_eq_false_2; [done|]. by intros [= ->].
  - rewrite endswith_cons. exact IH.
Qed.

Lemma length_snoc_slash (s : string) :
  String.length (s +:+ "/") = S (String.length s).
Proof. induction s as [|c s IH]; [reflexivity|]. simpl. by rewrite IH. Qed.

Lemma trim_loop_fuel (fuel fuel' : nat) (s : string) :
  String.length s ≤ fuel → String.length s ≤ fuel' →
  paths.trim_loop fuel s = paths.trim_loop fuel' s.
Proof.
  revert fuel' s. induction fuel as [|fuel IH]; intros fuel' s Hl Hl'.
  - destruct s; [|simpl in Hl; lia]. by destruct fuel'.
  - destruct fuel' as [|fuel'].
    { destruct s; [done|simpl in Hl'; lia]. }
    simpl. destruct (_ && _); [|done].
    apply IH; rewrite length_drop_last; lia.
Qed.

Lemma trim_step (s : string) :
  paths.trim s
  = if bool_decide (1 < String.length s) && Py.endswith s "/"
    then paths.trim (Py.drop_last s) else s.
Proof.
  rewrite <- last_char_slash.
  destruct s as [|c s]; [reflexivity|].
  unfold paths.trim at 1.
  change (String.length (String c s)) with (S (String.length s)).
  simpl paths.trim_loop.
  destruct (_ && _); [|reflexivity].
  apply trim_loop_fuel; rewrite ?length_drop_last; simpl; lia.
Qed.

Lemma trim_slashes (k : nat) : paths.trim (Py.slashes (S k)) = "/".
Proof.
  induction k as [|k IH]; [reflexivity|].
  rewrite trim_step.
  assert (Py.slashes (S (S k)) = Py.slashes (S k) +:+ "/") as ->.
  { change (Py.slashes (S (S k))) with ("" +:+ Py.slashes (S (S k))).
    by rewrite <- slashes_snoc. }
  rewrite endswith_app_slash, drop_last_app_slash, length_snoc_slash.
  rewrite bool_decide_eq_true_2; [exact IH|]. simpl. lia.
Qed.

(** The loop of [yield_files_recursively] removes trailing slashes but
    keeps the last character: what is left has at most one character or
    does not end with a slash, it differs from the path by a run of slashes
    only, trimming twice is trimming once, and a path made of slashes
    only becomes the root ["/"], not the empty string. *)
Theorem trim_trailing_slashes (path : string) (k : nat) :
  (String.length (paths.trim path) ≤ 1
   ∨ Py.endswith (paths.trim path) "/" = false)
  ∧ (∃ n, path = paths.trim path +:+ Py.slashes n)
  ∧ paths.trim (paths.trim path) = paths.trim path
  ∧ paths.trim (Py.slashes (S k)) = "/"
  ∧ (path ≠ "" → paths.trim path ≠ "").
Proof.
  assert (∀ s, String.length (paths.trim s) ≤ 1
               ∨ Py.endswith (paths.trim s) "/" = false) as Hdone.
  { intros s. remember (String.length s) as n eqn:Hn.
    revert s Hn. induction n as [n IH] using lt_wf_ind. intros s ->.
    rewrite trim_step. case_bool_decide as Hlen; simpl.
    - destruct (Py.endswith s "/") eqn:E; [|by right].
      apply (IH (String.length (Py.drop_last s))); [|done].
      rewrite length_drop_last. lia.
    - left. lia. }
  assert (∀ s, paths.trim (paths.trim s) = paths.trim s) as Hidemp.
  { intros s. rewrite (trim_step (paths.trim s)).
    destruct (Hdone s) as [Hl|He].
    - rewrite bool_decide_eq_false_2 by lia. done.
    - rewrite He. by rewrite andb_false_r. }
  split; [apply Hdone|]. split; [|split; [apply Hidemp|split]].
  - remember (String.length path) as n eqn:Hn.
    revert path Hn. induction n as [n IH] using lt_wf_ind. intros s ->.
    rewrite trim_step. case_bool_decide as Hlen; simpl.
    + destruct (Py.endswith s "/") eqn:E.
      * destruct (IH (String.length (Py.drop_last s))
                    ltac:(rewrite length_drop_last; lia)
                    (Py.drop_last s) eq_refl) as [m Hm].
        exists (S m). rewrite <- slashes_snoc, <- Hm.
        by apply endswith_slash_inv.
      * exists 0. simpl Py.slashes. by rewrite app_empty_r.
    + exists 0. simpl Py.slashes. by rewrite app_empty_r.
  - apply trim_slashes.
  - remember (String.length path) as n eqn:Hn.
    revert path Hn. induction n as [n IH] using lt_wf_ind. intros s -> Hs.
    rewrite trim_step. case_bool_decide as Hlen; simpl; [|done].
    destruct (Py.endswith s "/"); [|done].
    apply (IH (String.length (Py.drop_last s))); [|done|].
    + rewrite length_drop_last. lia.
    + intros E. apply (f_equal String.length) in E.
      rewrite length_drop_last in E. simpl in E. lia.
Qed.

Lemma str_le_total (a b : string) :
  paths.str_le a b = true ∨ paths.str_le b a = true.
Proof.
  revert b. induction a as [|x a IH]; intros [|y b]; simpl; auto.
  destruct (nat_of_ascii x <? nat_of_ascii y) eqn:Hxy,
    (nat_of_ascii y <? nat_of_ascii x) eqn:Hyx; auto.
Qed.

#[local] Instance str_le_Total : Total (λ a b, Is_true (paths.str_le a b)).
Proof.
  intros a b. destruct (str_le_total a b) as [E|E]; rewrite E; simpl; auto.
Qed.

(** The loop over the sorted paths: every path is cut, printed when asked
    and yielded, in order. *)
Lemma yield_fold (cut : string → string) (print_ : bool) (l : list string)
    (w : world) :
  foldr (λ p rest,
           let p := cut p in
           (if print_ then emit (OutWrite (p +:+ String "010"%char ""))
            else mret tt);;
           ps ← rest; mret (p :: ps))
    (mret []) l w
  = (Ok (cut <$> l),
     add_events w
       (if print_
        then (λ p, OutWrite (cut p +:+ String "010"%char "")) <$> l
        else [])).
Proof.
  revert w. induction l as [|p l IH]; intros w.
  - simpl. destruct print_; by rewrite add_events_nil.
  - simpl foldr. cbv zeta. destruct print_.
    + erewrite bind_ok by reflexivity.
      erewrite bind_ok by apply IH.
      unfold mret, M_ret. by rewrite add_events_app.
    + erewrite bind_ok by reflexivity.
      erewrite bind_ok by apply IH. reflexivity.
Qed.

Lemma from_app (a b : string) :
  common.from (String.length a) (a +:+ b) = b.
Proof. induction a as [|c a IH]; [by destruct b|]. exact IH. Qed.

Lemma from_under (t name : string) :
  common.from (String.length t + 1) (t +:+ "/" +:+ name) = name.
Proof.
  induction t as [|c t IH]; [reflexivity|]. exact IH.
Qed.

(** For a directory other than the root, when [glob] finds the entries
    [path/name], the entries are yielded by name, each once; the order is
    that of their sorted paths, and with [print_] each name is printed on
    a line of its own before it is yielded. *)
Theorem yield_files_names (glob : string → list string) (path : string)
    (print_ : bool) (names : list string) (w : world) :
  paths.trim path ≠ "" →
  Py.endswith (paths.trim path) "/" = false →
  glob (paths.trim path +:+ "/**")
  = (λ name, paths.trim path +:+ "/" +:+ name) <$> names →
  ∃ ys,
    paths.yield_files_recursively glob path print_ w
    = (Ok ys,
       add_events w
         (if print_
          then (λ y, OutWrite (y +:+ String "010"%char "")) <$> ys
          else []))
    ∧ ys ≡ₚ names
    ∧ Sorted (λ a b, Is_true (paths.str_le a b))
        ((λ name, paths.trim path +:+ "/" +:+ name) <$> ys).
Proof.
  intros Hne Hend Hglob.
  set (t := paths.trim path) in *.
  set (under := λ name, t +:+ "/" +:+ name) in *.
  set (cut := common.from (String.length t + 1)).
  assert (∀ name, cut (under name) = name) as Hcut.
  { intros name. apply from_under. }
  assert (paths.os_path_join t "**" = t +:+ "/**") as Hjoin.
  { unfold paths.os_path_join. rewrite Hend.
    destruct (String.eqb_spec t ""); done. }
  assert (∀ l : list string,
            (∀ x, x ∈ l → ∃ name, x = under name) →
            under <$> (cut <$> l) = l) as Hback.
  { intros l Hl. rewrite <- list_fmap_compose.
    rewrite <- (list_fmap_id l) at 2.
    apply Forall_fmap_ext_1, Forall_forall. intros x Hx.
    destruct (Hl x Hx) as [name ->]. simpl. by rewrite Hcut. }
  assert (∀ x, x ∈ paths.sorted (under <$> names) → ∃ name, x = under name)
    as Hall.
  { intros x Hx. unfold paths.sorted in Hx.
    rewrite merge_sort_Permutation in Hx.
    apply list_elem_of_fmap in Hx as (name & -> & _). by exists name. }
  exists (cut <$> paths.sorted (under <$> names)). split; [|split].
  - unfold paths.yield_files_recursively. fold t. cbv zeta.
    rewrite Hjoin, Hglob. fold cut.
    rewrite (yield_fold cut). f_equal. f_equal.
    destruct print_; [|done]. by rewrite <- list_fmap_compose.
  - transitivity (cut <$> (under <$> names)).
    + apply fmap_Permutation. unfold paths.sorted.
      apply merge_sort_Permutation.
    + rewrite <- list_fmap_compose.
      rewrite <- (list_fmap_id names) at 2.
      erewrite Forall_fmap_ext_1; [reflexivity|].
      apply Forall_forall. intros name _. simpl. apply Hcut.
  - rewrite Hback by done. unfold paths.sorted.
    apply Sorted_merge_sort. apply _.
Qed.

(** For the root, and for any path made of slashes only, one character
    too many is cut: when [glob] finds the entries [/name], each is yielded
    without the first character of its name. *)
Theorem yield_files_root (glob : string → list string) (k : nat)
    (print_ : bool) (names : list string) (w : world) :
  glob "/**" = (λ name, "/" +:+ name) <$> names →
  ∃ ys,
    fst (paths.yield_files_recursively glob (Py.slashes (S k)) print_ w)
    = Ok ys
    ∧ ys ≡ₚ common.from 1 <$> names.
Proof.
  intros Hglob.
  unfold paths.yield_files_recursively. rewrite trim_slashes. cbv zeta.
  change (paths.os_path_join "/" "**") with "/**". rewrite Hglob.
  rewrite (yield_fold (common.from (String.length "/" + 1))). simpl fst.
  eexists. split; [reflexivity|].
  transitivity (common.from (String.length "/" + 1)
                <$> ((λ name, "/" +:+ name) <$> names)).
  - apply fmap_Permutation. unfold paths.sorted.
    apply merge_sort_Permutation.
  - by rewrite <- list_fmap_compose.
Qed.

End yield_files.

(** * [CommonConfig] *)

Section common_config.

(** [CommonConfig.create] returns a configuration exactly when the
    [global] table of the configuration file has [sodar_api_key] and the
    token and the server URL each come from the arguments or from that
    table; so without a configuration file it raises [KeyError] whatever
    the arguments are. *)
Theorem create_outcome (args : config.Namespace)
    (toml_config : option (Py.dict (Py.dict string))) :
  let has (a : option string) (key : string) :=
    Py.truthy a = true ∨ is_Some (config.global toml_config key) in
  ((∃ c, config.create args toml_config = config.Config c)
   ↔ has (config.args_sodar_api_token args) "sodar_api_token"
     ∧ has (config.args_sodar_server_url args) "sodar_server_url"
     ∧ is_Some (config.global toml_config "sodar_api_key"))
  ∧ (∃ key, config.create args None = config.KeyError key).
Proof.
  intros has. subst has. split.
  - unfold config.create.
    destruct (Py.truthy (config.args_sodar_api_token args)) eqn:Et,
      (Py.truthy (config.args_sodar_server_url args)) eqn:Eu.
    all: destruct (config.args_sodar_api_token args) as [tok|];
      try discriminate Et.
    all: destruct (config.args_sodar_server_url args) as [url|];
      try discriminate Eu.
    all: destruct (config.global toml_config "sodar_api_token") as [t|];
      destruct (config.global toml_config "sodar_server_url") as [u|];
      destruct (config.global toml_config "sodar_api_key") as [k|].
    all: split;
      [intros [c Hc]; try discriminate Hc;
       repeat split; eauto
      |intros (Ht & Hu & Hk); eauto].
    all: try (by destruct Hk as [? [=]]).
    all: try (by destruct Ht as [[=]|[? [=]]]).
    all: try (by destruct Hu as [[=]|[? [=]]]).
  - unfold config.create, config.global. simpl.
    destruct (Py.truthy (config.args_sodar_api_token args)) eqn:Et;
      [|by eexists].
    destruct (config.args_sodar_api_token args) as [tok|];
      [|discriminate Et].
    destruct (Py.truthy (config.args_sodar_server_url args)) eqn:Eu;
      [|by eexists].
    destruct (config.args_sodar_server_url args) as [url|];
      [|discriminate Eu].
    by eexists.
Qed.

(** A token and a server URL given as arguments are the ones of the
    configuration, whatever the configuration file says for them. *)
Theorem create_prefers_arguments (args : config.Namespace)
    (toml_config : option (Py.dict (Py.dict string)))
    (token server_url api_key : string) :
  config.args_sodar_api_token args = Some token → token ≠ "" →
  config.args_sodar_server_url args = Some server_url → server_url ≠ "" →
  config.global toml_config "sodar_api_key" = Some api_key →
  config.create args toml_config
  = config.Config {| config.verbose := config.args_verbose args;
                     config.sodar_api_token := token;
                     config.sodar_server_url := server_url;
                     config.sodar_api_key := api_key |}.
Proof.
  intros Ht Htne Hu Hune Hk. unfold config.create. rewrite Ht, Hu, Hk.
  simpl.
  destruct (String.eqb_spec token ""); [done|].
  destruct (String.eqb_spec server_url ""); [done|]. done.
Qed.

Lemma stars_length (n : nat) :
  String.length (config.stars (Z.of_nat n)) = n.
Proof.
  unfold config.stars. rewrite Nat2Z.id.
  induction n as [|n IH]; [done|]. simpl. by rewrite IH.
Qed.

Lemma substring_all (n : nat) (s : string) :
  String.length s ≤ n → String.substring 0 n s = s.
Proof.
  revert n. induction s as [|c s IH]; intros n Hn.
  - by destruct n.
  - destruct n as [|n]; [simpl in Hn; lia|].
    simpl. rewrite IH; [done|]. simpl in Hn. lia.
Qed.

Lemma substring_split (n : nat) (s : string) :
  n ≤ String.length s →
  ∃ rest, s = String.substring 0 n s +:+ rest
          ∧ String.length (String.substring 0 n s) = n
          ∧ String.length rest = String.length s - n.
Proof.
  revert n. induction s as [|c s IH]; intros n Hn.
  - destruct n; [|simpl in Hn; lia]. by exists "".
  - destruct n as [|n].
    + exists (String c s). done.
    + destruct (IH n) as (rest & Hs & Hl & Hr); [simpl in Hn; lia|].
      exists rest. split; [|split].
      * change (String c s
                = String c (String.substring 0 n s +:+ rest)).
        by rewrite <- Hs.
      * change (S (String.length (String.substring 0 n s)) = S n).
        by rewrite Hl.
      * exact Hr.
Qed.

Lemma length_append (a b : string) :
  String.length (a +:+ b) = String.length a + String.length b.
Proof.
  induction a as [|c a IH]; [reflexivity|].
  change (S (String.length (a +:+ b))
          = S (String.length a + String.length b)).
  by rewrite IH.
Qed.

(** The masked token: a token of at most four characters is shown in
    full; of a longer one exactly the first four characters are shown and
    every further character is replaced by a star, so the length is
    that of the token. *)
Theorem masked_token (value : string) :
  (String.length value ≤ 4 → config.masked value = value)
  ∧ (4 < String.length value →
     ∃ shown hidden,
       value = shown +:+ hidden
       ∧ String.length shown = 4
       ∧ config.masked value
         = shown +:+ config.stars (Z.of_nat (String.length hidden)))
  ∧ String.length (config.masked value) = String.length value.
Proof.
  assert (String.length value ≤ 4 → config.masked value = value) as Hshort.
  { intros Hl. unfold config.masked. rewrite substring_all by done.
    unfold config.stars.
    replace (Z.to_nat (Z.of_nat (String.length value) - 4)) with 0 by lia.
    apply app_empty_r. }
  assert (4 < String.length value →
          ∃ shown hidden,
            value = shown +:+ hidden
            ∧ String.length shown = 4
            ∧ config.masked value
              = shown +:+ config.stars (Z.of_nat (String.length hidden)))
    as Hlong.
  { intros Hl.
    destruct (substring_split 4 value) as (rest & Hs & Hl4 & Hr); [lia|].
    exists (String.substring 0 4 value), rest.
    split; [done|]. split; [done|].
    unfold config.masked. do 2 f_equal. lia. }
  split; [done|]. split; [done|].
  destruct (decide (String.length value ≤ 4)) as [Hl|Hl].
  - by rewrite Hshort.
  - destruct Hlong as (shown & hidden & Hv & Hs & ->); [lia|].
    rewrite Hv.
    by rewrite !length_append, stars_length.
Qed.

End common_config.

(** * [check_irods_icommands] and [working_directory] *)

Section process.

(** [check_irods_icommands] raises exactly when it is not [warn_only] and
    one of the four programs is not found; it is silent exactly when all
    four are found; and what it reports are the programs not found, in the
    order iinit, iput, iget, irsync, next to a format that has not been
    applied to them. *)
Theorem check_irods_icommands_outcome (which : string → bool)
    (warn_only : bool) :
  let missing :=
    filter (λ prog, which prog = false) irods.executables in
  let msg := ("Could not find irods-icommands executables: %s",
              irods.join missing) in
  (irods.check_irods_icommands which warn_only = irods.Quiet
   ↔ which "iinit" = true ∧ which "iput" = true
     ∧ which "iget" = true ∧ which "irsync" = true)
  ∧ (irods.check_irods_icommands which warn_only = irods.Raised msg
     ↔ warn_only = false ∧ missing ≠ [])
  ∧ (irods.check_irods_icommands which warn_only = irods.Warned msg
     ↔ warn_only = true ∧ missing ≠ []).
Proof.
  intros missing msg. subst msg missing.
  unfold irods.check_irods_icommands, irods.executables.
  rewrite !filter_cons, filter_nil.
  destruct (which "iinit"), (which "iput"), (which "iget"), (which "irsync"),
    warn_only; simpl.
  all: repeat case_decide; try done.
  all: repeat split; try done; try (by intros (? & ? & ? & ?)).
  all: try (by intros [? ?]).
Qed.

(** [working_directory] changes back: when the directory exists and the
    one the process started in is still there after the block, the process
    ends where it started and what the block raised, if anything, is what
    comes out, even when the block changed directory itself; when the
    directory does not exist the block is not run and the process stays
    where it was. *)
Theorem working_directory_restores (path : string)
    (body : cwd.process → option cwd.error * cwd.process) (p : cwd.process) :
  (path ∈ cwd.directories p →
   cwd.current p ∈ cwd.directories
                     (snd (body {| cwd.current := path;
                                   cwd.directories := cwd.directories p |})) →
   cwd.current (snd (cwd.working_directory path body p)) = cwd.current p
   ∧ fst (cwd.working_directory path body p)
     = fst (body {| cwd.current := path;
                    cwd.directories := cwd.directories p |}))
  ∧ (path ∉ cwd.directories p →
     cwd.working_directory path body p
     = (Some (cwd.FileNotFoundError path), p)).
Proof.
  split.
  - intros Hpath Hprev. unfold cwd.working_directory, cwd.chdir.
    rewrite bool_decide_eq_true_2 by done.
    destruct (body _) as [raised p2]. simpl in *.
    by rewrite bool_decide_eq_true_2.
  - intros Hpath. unfold cwd.working_directory, cwd.chdir.
    by rewrite bool_decide_eq_false_2.
Qed.

End process.

(** * The further statements on concrete runs *)

(** An assay is given: one POST, no GET. *)
Lemma landingzones_create_explicit_witness :
  snd (api._landingzones_create
         (H:=demo.service (demo.JInvestigation demo.one_study_one_assay))
         "https://sodar//" "secret" "p1" (Some "A7") demo.world0)
  = add_events demo.world0
      [Log DEBUG "HTTP POST request to %s"
         [ArgStr "https://sodar/landingzones/api/create/p1"];
       Sent {| method := POST;
               url := "https://sodar/landingzones/api/create/p1";
               headers := [("Authorization", "Token secret")];
               data := [("assay", "A7")] |}].
Proof.
  apply (landingzones_create_explicit
           (H:=demo.service (demo.JInvestigation demo.one_study_one_assay))
           "https://sodar//" "secret" "p1" "A7" demo.world0).
  discriminate.
Defined.

(** No argument, a client with the default project [p1]. *)
Lemma get_raw_default_witness :
  api.get_raw (H:=demo.service (demo.JSheet demo.no_study))
    demo.client None demo.world0
  = api._samplesheets_get (H:=demo.service (demo.JSheet demo.no_study))
      "https://sodar/" "secret" "p1" demo.world0.
Proof.
  apply (get_raw_default (H:=demo.service (demo.JSheet demo.no_study))
           demo.client None "p1" demo.world0).
  - by left.
  - reflexivity.
  - discriminate.
Defined.

(** The service is down: [get] raises [HTTPError 503] after its one
    request. *)
Lemma get_http_error_witness :
  let r := api.get (H:=samples.outage) (H0:=demo.isatab)
             demo.client (Some "p2") demo.world0 in
  fst r = Raise (HTTPError 503)
  ∧ sent (trace (snd r))
    = [{| method := GET;
          url := "https://sodar/samplesheets/api/export/json/p2";
          headers := [("Authorization", "Token secret")];
          data := [] |}]
  ∧ reads (trace (snd r)) = [].
Proof.
  apply (get_http_error (H:=samples.outage) (H0:=demo.isatab)
           demo.client "p2" None
           {| status_code := 503; body := None |} demo.world0).
  - discriminate.
  - reflexivity.
  - simpl. lia.
Defined.

(** A payload with one study and two assays that the readers accept. *)
Lemma get_one_study_witness :
  ∃ bundle,
    api.get (H:=demo.service (demo.JSheet samples.one_study))
      (H0:=demo.isatab) demo.client None demo.world0
    = (Ok bundle,
       add_events demo.world0
         [Log DEBUG "HTTP GET request to %s"
            [ArgStr "https://sodar/samplesheets/api/export/json/p1"];
          Sent {| method := GET;
                  url := "https://sodar/samplesheets/api/export/json/p1";
                  headers := [("Authorization", "Token secret")];
                  data := [] |};
          Read InvestigationReader "i.txt";
          Read StudyReader "s1.txt";
          Read AssayReader "a1.txt";
          Read AssayReader "a2.txt"])
    ∧ api.investigation bundle = "investigation"
    ∧ api.investigation_filename bundle = "i.txt"
    ∧ api.studies bundle = [("s1.txt", "study 1")]
    ∧ Forall2 (λ kd kx,
                 kx.1 = kd.1 ∧ demo.reader_of (tsv kd.2) = inr kx.2)
        (raw_assays samples.one_study) (api.assays bundle).
Proof.
  apply (get_one_study (H:=demo.service (demo.JSheet samples.one_study))
           (H0:=demo.isatab) demo.client None
           (demo.JSheet samples.one_study) demo.world0
           (snd (api.get_raw
                   (H:=demo.service (demo.JSheet samples.one_study))
                   demo.client None demo.world0))
           "s1.txt" (demo.entry "study 1") "investigation" "study 1").
  - reflexivity.
  - reflexivity.
  - by compute_done.
  - reflexivity.
  - reflexivity.
  - intros k d Hin. simpl in Hin.
    apply elem_of_cons in Hin as [[= -> ->]|Hin]; [by eexists|].
    apply list_elem_of_singleton in Hin as [= -> ->]. by eexists.
Defined.

(** Nothing can be typed: the prompt raises [EOFError]. *)
Lemma overwrite_helper_eof_witness :
  ∃ evs,
    common.overwrite_helper (H:=demo.rendering) (H0:=demo.files) (common.PathStr "out.txt")
      "new" true true false false {| common.has_buffer := true |}
      (samples.typed [])
    = (Raise EOFError,
       add_events (samples.typed [])
         (evs ++
          [Log INFO "About to write file contents to %s" [ArgStr "out.txt"];
           Log INFO "See above for the diff that will be applied." [];
           Prompt "Is this OK? [yN] "]))
    ∧ Forall is_display evs.
Proof.
  apply (overwrite_helper_eof (H:=demo.rendering) (H0:=demo.files) (common.PathStr "out.txt")
           "new" true false {| common.has_buffer := true |}
           (samples.typed [])).
  - reflexivity.
  - reflexivity.
Defined.

(** [Yes] is typed and the destination is spelled [./out.txt]: the file
    [out.txt], which held other text, is the one that is written. *)
Lemma write_then_read_witness :
  let w' :=
    snd (common.overwrite_helper (H:=demo.rendering) (H0:=demo.files)
           (common.PathStr "./out.txt") "new" true false false false
           {| common.has_buffer := true |}
           (samples.typed_with_file ["Yes"])) in
  fst (common.exists_ "out.txt" w') = Ok true
  ∧ fst (common.read_text "out.txt" w') = Ok "new"
  ∧ (∀ other, other ≠ "out.txt" →
              fs w' !! other = fs (samples.typed_with_file ["Yes"]) !! other).
Proof.
  apply (write_then_read (H:=demo.rendering) (H0:=demo.files)
           (common.PathStr "./out.txt") "new" false false
           {| common.has_buffer := true |}
           (samples.typed_with_file ["Yes"]) "Yes" []).
  - reflexivity.
  - reflexivity.
  - reflexivity.
Defined.

(** No file [out.txt], and an empty one. *)
Lemma missing_destination_is_empty_witness :
  trace (snd (common.overwrite_helper (H:=demo.rendering) (H0:=demo.files)
                (common.PathStr "out.txt") "new" false true false false
                {| common.has_buffer := true |} demo.world0))
  = trace (snd (common.overwrite_helper (H:=demo.rendering) (H0:=demo.files)
                  (common.PathStr "out.txt") "new" false true false false
                  {| common.has_buffer := true |}
                  {| fs := <["out.txt" := ""]> ∅; winsize := λ _, None;
                     stdin := []; trace := [] |})).
Proof.
  apply (missing_destination_is_empty (H:=demo.rendering) (H0:=demo.files)
           (common.PathStr "out.txt") "new" false false
           {| common.has_buffer := true |} demo.world0).
  reflexivity.
Defined.

(** No files, and a file named ["-"]. *)
Lemma stdout_ignores_files_witness :
  let run := common.overwrite_helper (H:=demo.rendering) (H0:=demo.files)
               (common.PathStr "-") "new" true true false false
               {| common.has_buffer := true |} in
  fst (run demo.world0) = fst (run samples.dash_file)
  ∧ trace (snd (run demo.world0)) = trace (snd (run samples.dash_file)).
Proof.
  apply (stdout_ignores_files (H:=demo.rendering) (H0:=demo.files) "new" true true false false
           {| common.has_buffer := true |} demo.world0 samples.dash_file).
  - reflexivity.
  - reflexivity.
Defined.

(** The contents [ab] with and without a final newline. *)
Lemma final_newline_not_shown_witness :
  common.overwrite_helper (H:=demo.rendering) (H0:=demo.files) (common.PathStr "out.txt")
    ("ab" +:+ String "010"%char "") false true false false
    {| common.has_buffer := true |} demo.world0
  = common.overwrite_helper (H:=demo.rendering) (H0:=demo.files) (common.PathStr "out.txt")
      "ab" false true false false {| common.has_buffer := true |}
      demo.world0.
Proof.
  apply (final_newline_not_shown (H:=demo.rendering) (H0:=demo.files)
           (common.PathStr "out.txt") "a" "b"%char false false
           {| common.has_buffer := true |} demo.world0).
  reflexivity.
Defined.

(** From [/home/project/src/lib] the marker is found two levels up. *)
Lemma find_base_path_nearest_witness :
  paths.find_base_path_loop samples.marker 3 samples.lib
  = Some (paths.VStr "/home/project").
Proof.
  apply (find_base_path_nearest samples.marker samples.lib 2 3).
  - intros [|[|j]] Hj; [reflexivity|reflexivity|lia].
  - reflexivity.
  - lia.
Defined.

(** No marker anywhere: a hundred iterations from [/home] and the loop is
    still running. *)
Lemma find_base_path_never_returns_witness :
  paths.find_base_path_loop (λ _, false) 100
    {| paths.absolute := true; paths.parts := ["home"] |}
  = None.
Proof.
  apply (find_base_path_never_returns (λ _, false)
           {| paths.absolute := true; paths.parts := ["home"] |} 100).
  intros j _. reflexivity.
Defined.

(** What is returned from [/home/project/src/lib] is a [str]. *)
Lemma find_base_path_returns_str_witness :
  ∃ q, paths.VStr "/home/project" = paths.VStr (paths.str q).
Proof.
  apply (find_base_path_returns_str samples.marker samples.lib 3).
  reflexivity.
Defined.

(** Two files under [data//], printed and yielded in sorted order. *)
Lemma yield_files_names_witness :
  ∃ ys,
    paths.yield_files_recursively samples.glob_data "data//" true
      demo.world0
    = (Ok ys,
       add_events demo.world0
         ((λ y, OutWrite (y +:+ String "010"%char "")) <$> ys))
    ∧ ys ≡ₚ ["b.txt"; "a.txt"]
    ∧ Sorted (λ a b, Is_true (paths.str_le a b))
        ((λ name, "data/" +:+ name) <$> ys).
Proof.
  apply (yield_files_names samples.glob_data "data//" true
           ["b.txt"; "a.txt"] demo.world0).
  - vm_compute. discriminate.
  - reflexivity.
  - reflexivity.
Defined.

(** The entries [/etc] and [/bin] of the root come out as [tc] and [in]. *)
Lemma yield_files_root_witness :
  ∃ ys,
    fst (paths.yield_files_recursively samples.glob_root "//" false
           demo.world0)
    = Ok ys
    ∧ ys ≡ₚ ["tc"; "in"].
Proof.
  apply (yield_files_root samples.glob_root 1 false ["etc"; "bin"]
           demo.world0).
  reflexivity.
Defined.

(** The arguments win over the configuration file. *)
Lemma create_prefers_arguments_witness :
  config.create samples.args samples.toml
  = config.Config {| config.verbose := true;
                     config.sodar_api_token := "token-from-args";
                     config.sodar_server_url := "https://args/";
                     config.sodar_api_key := "key" |}.
Proof.
  apply (create_prefers_arguments samples.args samples.toml
           "token-from-args" "https://args/" "key").
  - reflexivity.
  - discriminate.
  - reflexivity.
  - discriminate.
  - reflexivity.
Defined.

(** A token of eight characters: four are shown. *)
Lemma masked_token_witness :
  ∃ shown hidden,
    "abcdefgh" = shown +:+ hidden
    ∧ String.length shown = 4
    ∧ config.masked "abcdefgh"
      = shown +:+ config.stars (Z.of_nat (String.length hidden)).
Proof.
  apply (masked_token "abcdefgh"). simpl. lia.
Defined.

(** The block goes to the root and raises; the process is back in [/home]
    and the block's exception comes out. *)
Lemma working_directory_restores_witness :
  cwd.current (snd (cwd.working_directory "/tmp" samples.wandering
                      samples.at_home))
  = "/home"
  ∧ fst (cwd.working_directory "/tmp" samples.wandering samples.at_home)
    = Some (cwd.Other EOFError).
Proof.
  apply (working_directory_restores "/tmp" samples.wandering samples.at_home).
  - by compute_done.
  - by compute_done.
Defined.
